(** * i18next-react-query: the HTTP backend's request builder, error
      classifier and cache-key scheme, embedded from the TypeScript sources.

    Sources embedded here:
    - [types.ts] (the third unit of src/lib/react-native-config.ts): option
      and error shapes, [queryKeys], [isQueryClientAvailable],
      [isTanstackQueryEnabled];
    - src/lib/tanstack/query-keys.ts: the second [queryKeys] factory;
    - [error-handling.ts] (second unit of src/unnamed/part_002):
      [I18nextErrorHandler];
    - [tanstack-backend.ts] (first unit of src/unnamed/part_002):
      [TanStackI18nextBackend].

    Conventions of the embedding.
    - A JavaScript object with optional properties is a record of [option]
      fields: [None] is "no such own property" (reading it gives
      [undefined]).
    - Numbers that the code only uses as whole numbers (HTTP status codes,
      attempt indices, millisecond counts) are [Z].
    - Strings are [string] (byte strings); [toLowerCase] lowers ASCII letters.
    - Object spread [{...a, ...b}] is a field-wise override with the right
      operand winning; on header mappings it is the union of finite maps.
    - Built-ins and collaborators outside the repository ([JSON.stringify],
      [JSON.parse], [fetch], the cache client) are parameters. *)

From Stdlib Require Import ZArith Lia.
From stdpp Require Import base strings gmap list pretty.

Set Warnings "-register-all".

Local Open Scope Z_scope.
Local Open Scope string_scope.

(** ** JavaScript values and string helpers *)

Module JS.

(** The values a payload, a key element or a parsed body can be.  Objects
    are finite maps, so that equality of [JSValue] is deep (structural)
    equality, blind to property order. *)
Inductive JSValue : Type :=
  | JUndefined
  | JNull
  | JBool (b : bool)
  | JNum (n : Z)
  | JStr (s : string)
  | JArr (items : list JSValue)
  | JObj (props : gmap string JSValue).

(** [if (v)], [v ? a : b], [!!v]. *)
Definition truthy (v : JSValue) : bool :=
  match v with
  | JUndefined | JNull => false
  | JBool b => b
  | JNum n => negb (Z.eqb n 0)
  | JStr s => negb (String.eqb s "")
  | JArr _ | JObj _ => true
  end.

(** Truthiness of an optional number property ([undefined] and [0] are
    falsy). *)
Definition truthyNum (o : option Z) : bool :=
  match o with
  | Some n => negb (Z.eqb n 0)
  | None => false
  end.

(** Truthiness of an optional string property ([undefined] and the empty
    string are falsy). *)
Definition truthyStr (o : option string) : bool :=
  match o with
  | Some s => negb (String.eqb s "")
  | None => false
  end.

(** [a || b] on optional numbers: [a] when truthy, else [b]. *)
Definition orNum (a b : option Z) : option Z :=
  if truthyNum a then a else b.

(** [hay.startsWith(needle)] *)
Fixpoint startsWith (needle hay : string) : bool :=
  match needle, hay with
  | EmptyString, _ => true
  | String _ _, EmptyString => false
  | String a n, String b h => Ascii.eqb a b && startsWith n h
  end.

(** [hay.includes(needle)] *)
Fixpoint includes (needle hay : string) : bool :=
  startsWith needle hay ||
  match hay with
  | EmptyString => false
  | String _ h => includes needle h
  end.

Definition lowerAscii (c : Ascii.ascii) : Ascii.ascii :=
  let n := Ascii.nat_of_ascii c in
  if Nat.leb 65 n && Nat.leb n 90 then Ascii.ascii_of_nat (n + 32) else c.

(** [s.toLowerCase()] *)
Fixpoint toLowerCase (s : string) : string :=
  match s with
  | EmptyString => EmptyString
  | String c r => String (lowerAscii c) (toLowerCase r)
  end.

(** [`${n}`] for a whole number. *)
Definition numToString (n : Z) : string := pretty n.

(** [terms.some(term => hay.includes(term))] *)
Definition someIncludes (terms : list string) (hay : string) : bool :=
  existsb (fun term => includes term hay) terms.

(** Spread of an optional property over a base value: the override wins
    when it has the property. *)
Definition override {A} (o base : option A) : option A :=
  match o with
  | Some v => Some v
  | None => base
  end.

End JS.
Export JS.

(** ** types.ts *)

(** [I18nextError extends Error]: the shape of both the raw errors that
    reach the classifier (typed [any] there; [response] is the property a
    Response-like error carries) and of the normalized errors it builds. *)
Module I18nextError.
Record ErrorResponse := { response_status : option Z }.

Record t := {
  name : option string;
  message : option string;
  status : option Z;
  retry : option bool;
  url : option string;
  response : option ErrorResponse
}.
End I18nextError.

Module I18nextResponse.
Record t := { status : Z; data : JSValue }.
End I18nextResponse.

(** A settled promise: the value it resolves with, or the reason it rejects
    with ([None] for a [null]/[undefined] reason). *)
Inductive Promise (A : Type) : Type :=
  | Resolved (value : A)
  | Rejected (reason : option I18nextError.t).
Arguments Resolved {A} value.
Arguments Rejected {A} reason.

(** How a synchronous evaluation ends: with a value, or with a thrown
    error. *)
Inductive Completion (A : Type) : Type :=
  | Returned (value : A)
  | Thrown (error : I18nextError.t).
Arguments Returned {A} value.
Arguments Thrown {A} error.

(** An option that is either a plain value or a function producing it
    ([typeof x === "function" ? x(arg) : x]). *)
Inductive ValueOrFn (Arg A : Type) : Type :=
  | Plain (value : A)
  | Fn (f : Arg -> A).
Arguments Plain {Arg A} value.
Arguments Fn {Arg A} f.

Definition resolveWith {Arg A} (x : ValueOrFn Arg A) (arg : Arg) : A :=
  match x with
  | Plain v => v
  | Fn f => f arg
  end.

(** The properties of the transport's [RequestInit] that the backend
    builds. *)
Module RequestInit.
Record t := {
  method : option string;
  headers : option (gmap string string);
  body : option JSValue;
  credentials : option string;
  mode : option string
}.

Definition empty : t :=
  {| method := None; headers := None; body := None;
     credentials := None; mode := None |}.

(** [{ ...base, ...over }] *)
Definition spread (base over : t) : t :=
  {| method := override (method over) (method base);
     headers := override (headers over) (headers base);
     body := override (body over) (body base);
     credentials := override (credentials over) (credentials base);
     mode := override (mode over) (mode base) |}.
End RequestInit.

Inductive RetryOption := RetryCount (n : Z) | RetryFlag (b : bool).
Inductive RetryDelayOption := RetryDelayMs (ms : Z) | RetryDelayFn (f : Z -> Z).

Module TanStackQueryOptions.
Record t := {
  enabled : option bool;
  staleTime : option Z;
  cacheTime : option Z;
  retry : option RetryOption;
  retryDelay : option RetryDelayOption;
  refetchOnWindowFocus : option bool;
  refetchOnReconnect : option bool
}.
End TanStackQueryOptions.

(** The external cache client, as far as the backend talks to it. *)
Definition QueryKey := list JSValue.

Module QueryOptions.
Record t := {
  queryKey : QueryKey;
  queryFn : unit -> Promise I18nextResponse.t;
  staleTime : option Z;
  cacheTime : option Z;
  retry : Z -> I18nextError.t -> bool;
  retryDelay : RetryDelayOption;
  refetchOnWindowFocus : bool;
  refetchOnReconnect : bool
}.
End QueryOptions.

Module QueryClient.
Record t := {
  fetchQuery : QueryOptions.t -> Promise I18nextResponse.t;
  getQueryData : QueryKey -> option I18nextResponse.t
}.
End QueryClient.

(** [I18nextRequestOptions], with the properties the embedded functions
    read.  [parse] returns [None] where the JavaScript function throws;
    [queryStringParams] keeps the insertion order [Object.entries] walks. *)
Module I18nextRequestOptions.
Record t := {
  parse : option (string -> option JSValue);
  crossDomain : option bool;
  withCredentials : option bool;
  queryStringParams : option (list (string * string));
  customHeaders : option (ValueOrFn unit (gmap string string));
  requestOptions : option (ValueOrFn JSValue RequestInit.t);
  stringify : option (JSValue -> string);
  queryClient : option QueryClient.t;
  tanstackQuery : option TanStackQueryOptions.t
}.

Definition empty : t :=
  {| parse := None; crossDomain := None; withCredentials := None;
     queryStringParams := None; customHeaders := None;
     requestOptions := None; stringify := None; queryClient := None;
     tanstackQuery := None |}.

(** [{ ...base, ...over }]: a shallow merge, nested objects are replaced
    whole. *)
Definition spread (base over : t) : t :=
  {| parse := override (parse over) (parse base);
     crossDomain := override (crossDomain over) (crossDomain base);
     withCredentials := override (withCredentials over) (withCredentials base);
     queryStringParams :=
       override (queryStringParams over) (queryStringParams base);
     customHeaders := override (customHeaders over) (customHeaders base);
     requestOptions := override (requestOptions over) (requestOptions base);
     stringify := override (stringify over) (stringify base);
     queryClient := override (queryClient over) (queryClient base);
     tanstackQuery := override (tanstackQuery over) (tanstackQuery base) |}.
End I18nextRequestOptions.

(** [RequestCallback]: the two arguments a callback is invoked with; a
    [null] response is [None]. *)
Record CallbackCall := {
  callbackError : JSValue;
  callbackResponse : option I18nextResponse.t
}.

Module Types.

(** [export const queryKeys] of types.ts, the factory the backend imports. *)
Module queryKeys.
Definition all : QueryKey := [JStr "i18next"].
Definition loads (_ : unit) : QueryKey := (all ++ [JStr "load"])%list.
Definition load (url : string) (payload : JSValue) : QueryKey :=
  (loads tt ++ [JStr url; payload])%list.
Definition creates (_ : unit) : QueryKey := (all ++ [JStr "create"])%list.
Definition create (url : string) (payload : JSValue) : QueryKey :=
  (creates tt ++ [JStr url; payload])%list.
End queryKeys.

(** [isQueryClientAvailable]:
    [!!(options.queryClient && options.tanstackQuery?.enabled !== false)] *)
Definition isQueryClientAvailable (options : I18nextRequestOptions.t) : bool :=
  bool_decide (is_Some (I18nextRequestOptions.queryClient options)) &&
  negb (bool_decide
          (I18nextRequestOptions.tanstackQuery options
             ≫= TanStackQueryOptions.enabled = Some false)).

(** [isTanstackQueryEnabled]:
    [!!(options.tanstackQuery?.enabled && options.queryClient)] *)
Definition isTanstackQueryEnabled (options : I18nextRequestOptions.t) : bool :=
  bool_decide
    (I18nextRequestOptions.tanstackQuery options
       ≫= TanStackQueryOptions.enabled = Some true) &&
  bool_decide (is_Some (I18nextRequestOptions.queryClient options)).

End Types.

(** ** lib/tanstack/query-keys.ts *)

Module QueryKeysTs.
Module queryKeys.
Definition all : QueryKey := [JStr "i18next"].
Definition load (url : string) : QueryKey :=
  [JStr "i18next"; JStr "load"; JStr url].
Definition create (url : string) (payload : JSValue) : QueryKey :=
  [JStr "i18next"; JStr "save"; JStr url; payload].
End queryKeys.
End QueryKeysTs.

(** ** error-handling.ts *)

Module I18nextErrorHandler.
Import I18nextError.

Definition networkErrorTerms : list string :=
  ["failed"; "fetch"; "network"; "load"; "timeout"; "abort"].

(** [new Error() as I18nextError] with [url] assigned. *)
Definition newError (u : string) : I18nextError.t :=
  {| name := Some "Error"; message := Some ""; status := None;
     retry := None; url := Some u; response := None |}.

Definition withStatus (e : I18nextError.t) (s : option Z) : I18nextError.t :=
  {| name := name e; message := message e; status := s;
     retry := retry e; url := url e; response := response e |}.

(** [e.message = msg; e.retry = r; return e] *)
Definition finish (e : I18nextError.t) (msg : string) (r : bool)
    : I18nextError.t :=
  {| name := name e; message := Some msg; status := status e;
     retry := Some r; url := url e; response := response e |}.

(** [error.response?.status || error.status] *)
Definition carriedStatus (error : I18nextError.t) : option Z :=
  orNum (match response error with
         | Some r => response_status r
         | None => None
         end) (status error).

Definition in5xx (s : Z) : bool := Z.leb 500 s && Z.ltb s 600.
Definition in4xx (s : Z) : bool := Z.leb 400 s && Z.ltb s 500.

(** A range test on a possibly undefined status: comparisons with
    [undefined] are false. *)
Definition optIn (p : Z -> bool) (s : option Z) : bool :=
  match s with
  | Some n => p n
  | None => false
  end.

(** [`failed loading ${url}; status code: ${status}`] *)
Definition statusMessage (u : string) (s : option Z) : string :=
  "failed loading " +:+ u +:+ "; status code: " +:+
  match s with
  | Some n => numToString n
  | None => "undefined"
  end.

(** The tail of [transformError]: the parse-failure test and the default. *)
Definition classifyParseOrDefault (i18nextError : I18nextError.t)
    (error : option I18nextError.t) (u : string) : I18nextError.t :=
  if match error with
     | Some e =>
         bool_decide (name e = Some "SyntaxError") ||
         match message e with
         | Some m => includes "JSON" m
         | None => false
         end
     | None => false
     end
  then finish i18nextError ("failed parsing " +:+ u +:+ " to json") false
  else
    finish i18nextError
      (match error ≫= message with
       | Some m => if truthyStr (Some m) then m else "Unknown error occurred"
       | None => "Unknown error occurred"
       end) false.

(** [transformError] from its network-terms test on. *)
Definition classifyByMessage (i18nextError : I18nextError.t)
    (error : option I18nextError.t) (u : string) : I18nextError.t :=
  match error ≫= message with
  | Some m =>
      if truthyStr (Some m) &&
         someIncludes networkErrorTerms (toLowerCase m)
      then finish i18nextError ("failed loading " +:+ u +:+ ": " +:+ m) true
      else classifyParseOrDefault i18nextError error u
  | None => classifyParseOrDefault i18nextError error u
  end.

(** [static transformError(error: any, url: string): I18nextError];
    [None] is a [null]/[undefined] error. *)
Definition transformError (error : option I18nextError.t) (u : string)
    : I18nextError.t :=
  let i18nextError := newError u in
  match error with
  | Some e =>
      if bool_decide (is_Some (response e)) || truthyNum (status e) then
        let s := carriedStatus e in
        let i18nextError := withStatus i18nextError s in
        if optIn in5xx s then
          finish i18nextError (statusMessage u s) true
        else if optIn in4xx s then
          finish i18nextError (statusMessage u s) false
        else classifyByMessage i18nextError error u
      else classifyByMessage i18nextError error u
  | None => classifyByMessage i18nextError error u
  end.

(** [static shouldRetry(error)]: [error.retry === true] *)
Definition shouldRetry (error : I18nextError.t) : bool :=
  bool_decide (retry error = Some true).

(** [static getRetryDelay(attemptIndex)]:
    [Math.min(1000 * Math.pow(2, attemptIndex), 30000)] *)
Definition getRetryDelay (attemptIndex : Z) : Z :=
  Z.min (1000 * 2 ^ attemptIndex) 30000.

(** The [{ error, retry }] object [processForCallback] returns. *)
Module Processed.
Record t := { error : JSValue; retry : bool }.
End Processed.

(** [error.message] as a value. *)
Definition messageValue (e : I18nextError.t) : JSValue :=
  match message e with
  | Some m => JStr m
  | None => JUndefined
  end.

(** [static processForCallback(error)] *)
Definition processForCallback (error : option I18nextError.t) : Processed.t :=
  match error with
  | None => {| Processed.error := JNull; Processed.retry := false |}
  | Some e =>
      if bool_decide (retry e = Some true) then
        {| Processed.error := messageValue e; Processed.retry := true |}
      else if truthyNum (status e) && optIn in4xx (status e) then
        {| Processed.error := messageValue e; Processed.retry := false |}
      else if truthyNum (status e) && optIn in5xx (status e) then
        {| Processed.error := messageValue e; Processed.retry := true |}
      else {| Processed.error := messageValue e; Processed.retry := false |}
  end.

End I18nextErrorHandler.

(** ** tanstack-backend.ts *)

(** What the transport answers to one [fetch(url, init)]: a rejection, or a
    response with its [ok] flag, status line and body text. *)
Module FetchResponse.
Record t := { ok : bool; status : Z; statusText : string; text : string }.
End FetchResponse.

Inductive FetchOutcome :=
  | FetchRejected (reason : option I18nextError.t)
  | FetchResponded (response : FetchResponse.t).

(** [global.process] when the code runs under Node.js. *)
Module NodeProcess.
Record t := { version : string; platform : string; arch : string }.
End NodeProcess.

Module TanStackI18nextBackend.
Import I18nextErrorHandler.

(** The instance: [this.queryClient], [this.options]. *)
Record t := {
  queryClient : QueryClient.t;
  options : I18nextRequestOptions.t
}.

(** The shape of the [queryKeys] object that [types.ts] exports. *)
Module QueryKeysObject.
Record t := {
  all : QueryKey;
  load : string -> JSValue -> QueryKey;
  create : string -> JSValue -> QueryKey
}.
End QueryKeysObject.

(** The error thrown when an identifier without a binding is evaluated. *)
Definition referenceError (identifier : string) : I18nextError.t :=
  {| I18nextError.name := Some "ReferenceError";
     I18nextError.message := Some (identifier +:+ " is not defined");
     I18nextError.status := None;
     I18nextError.retry := None;
     I18nextError.url := None;
     I18nextError.response := None |}.

(** The identifier [queryKeys] as [tanstack-backend.ts] sees it.  The file
    names it only inside [import type { ..., queryKeys } from "./types.js"];
    a type-only import is removed when the file is compiled and the file
    declares the name nowhere else, so at run time the identifier has no
    binding and every evaluation of it throws. *)
Definition queryKeys : Completion QueryKeysObject.t :=
  Thrown (referenceError "queryKeys").

(** The default [tanstackQuery] block of the constructor. *)
Definition defaultTanstackQuery : TanStackQueryOptions.t :=
  {| TanStackQueryOptions.enabled := Some true;
     TanStackQueryOptions.staleTime := Some (5 * 60 * 1000);
     TanStackQueryOptions.cacheTime := Some (10 * 60 * 1000);
     TanStackQueryOptions.retry := Some (RetryCount 3);
     TanStackQueryOptions.retryDelay := Some (RetryDelayFn getRetryDelay);
     TanStackQueryOptions.refetchOnWindowFocus := Some false;
     TanStackQueryOptions.refetchOnReconnect := Some true |}.

(** [constructor(queryClient, options = {})] *)
Definition constructor (queryClient : QueryClient.t)
    (options : option I18nextRequestOptions.t) : t :=
  {| queryClient := queryClient;
     options :=
       I18nextRequestOptions.spread
         {| I18nextRequestOptions.parse := None;
            I18nextRequestOptions.crossDomain := None;
            I18nextRequestOptions.withCredentials := None;
            I18nextRequestOptions.queryStringParams := None;
            I18nextRequestOptions.customHeaders := None;
            I18nextRequestOptions.requestOptions := None;
            I18nextRequestOptions.stringify := None;
            I18nextRequestOptions.queryClient := None;
            I18nextRequestOptions.tanstackQuery := Some defaultTanstackQuery |}
         (default I18nextRequestOptions.empty options) |}.

Section Host.

(** Built-ins and the environment the class runs in. *)
Variable JSON_stringify : JSValue -> JSValue.
Variable JSON_parse : string -> option JSValue.
Variable encodeURIComponent : string -> string.
Variable nodeProcess : option NodeProcess.t.
Variable fetch : string -> RequestInit.t -> FetchOutcome.

(** [entries.map(...).join("&")] *)
Fixpoint joinAmp (parts : list string) : string :=
  match parts with
  | [] => ""
  | [p] => p
  | p :: rest => p +:+ "&" +:+ joinAmp rest
  end.

(** [private addQueryString(url, params)] *)
Definition addQueryString (url : string)
    (params : option (list (string * string))) : string :=
  match params with
  | None => url
  | Some entries =>
      let queryString :=
        joinAmp
          (map (fun kv => encodeURIComponent (fst kv) +:+ "=" +:+
                          encodeURIComponent (snd kv)) entries) in
      if String.eqb queryString "" then url
      else url +:+ (if includes "?" url then "&" else "?") +:+ queryString
  end.

Definition userAgent (p : NodeProcess.t) : string :=
  "i18next-http-backend (node/" +:+ NodeProcess.version p +:+ "; " +:+
  NodeProcess.platform p +:+ " " +:+ NodeProcess.arch p +:+ ")".

(** The local [customHeaders] of [buildFetchOptions]: the configured
    mapping, or the result of the configured function. *)
Definition resolvedCustomHeaders (this : t) : option (gmap string string) :=
  (fun c => resolveWith c tt) <$>
    I18nextRequestOptions.customHeaders (options this).

(** The local [requestOptions] of [buildFetchOptions]:
    [typeof o === "function" ? o(payload) : o || {}] *)
Definition resolvedRequestOptions (this : t) (payload : JSValue)
    : RequestInit.t :=
  match I18nextRequestOptions.requestOptions (options this) with
  | Some r => resolveWith r payload
  | None => RequestInit.empty
  end.

(** [(this.options.stringify || JSON.stringify)(payload)] *)
Definition stringifyPayload (this : t) (payload : JSValue) : JSValue :=
  match I18nextRequestOptions.stringify (options this) with
  | Some f => JStr (f payload)
  | None => JSON_stringify payload
  end.

(** The local [headers] of [buildFetchOptions] once all three blocks have
    written to it. *)
Definition builtHeaders (this : t) (payload : JSValue) : gmap string string :=
  let headers : gmap string string := ∅ in
  let headers :=
    match resolvedCustomHeaders this with
    | Some c => c ∪ headers
    | None => headers
    end in
  let headers :=
    match nodeProcess with
    | Some p => <["User-Agent" := userAgent p]> headers
    | None => headers
    end in
  if truthy payload then <["Content-Type" := "application/json"]> headers
  else headers.

(** [private buildFetchOptions(payload?)]; an omitted payload is
    [JUndefined]. *)
Definition buildFetchOptions (this : t) (payload : JSValue) : RequestInit.t :=
  let headers := builtHeaders this payload in
  let requestOptions := resolvedRequestOptions this payload in
  RequestInit.spread
    {| RequestInit.method := Some (if truthy payload then "POST" else "GET");
       RequestInit.headers :=
         Some (default ∅ (RequestInit.headers requestOptions) ∪ headers);
       RequestInit.body :=
         Some (if truthy payload then stringifyPayload this payload
               else JUndefined);
       RequestInit.credentials :=
         Some (if bool_decide
                    (I18nextRequestOptions.withCredentials (options this)
                     = Some true)
               then "include" else "same-origin");
       RequestInit.mode :=
         Some (if bool_decide
                    (I18nextRequestOptions.crossDomain (options this)
                     = Some true)
               then "cors" else "same-origin") |}
    requestOptions.

(** The error the query function raises for a non-ok response. *)
Definition httpError (r : FetchResponse.t) : I18nextError.t :=
  {| I18nextError.name := Some "Error";
     I18nextError.message :=
       Some ("HTTP " +:+ numToString (FetchResponse.status r) +:+ ": " +:+
             FetchResponse.statusText r);
     I18nextError.status := Some (FetchResponse.status r);
     I18nextError.retry := None;
     I18nextError.url := None;
     I18nextError.response := None |}.

(** The error the query function raises when parsing the body throws. *)
Definition parseFailure (url : string) : I18nextError.t :=
  {| I18nextError.name := Some "SyntaxError";
     I18nextError.message := Some ("Failed to parse response from " +:+ url);
     I18nextError.status := None;
     I18nextError.retry := None;
     I18nextError.url := None;
     I18nextError.response := None |}.

(** The body-parsing block of the query function; [None] when it throws. *)
Definition parseBody (this : t) (textData : string) : option JSValue :=
  match I18nextRequestOptions.parse (options this) with
  | Some parse => parse textData
  | None =>
      if String.eqb textData "" then Some (JObj ∅) else JSON_parse textData
  end.

(** [private createQueryFn = (url, payload) => async () => ...] *)
Definition createQueryFn (this : t) (url : string) (payload : JSValue)
    : unit -> Promise I18nextResponse.t :=
  fun _ =>
    let finalUrl :=
      addQueryString url
        (I18nextRequestOptions.queryStringParams (options this)) in
    let fetchOptions := buildFetchOptions this payload in
    match fetch finalUrl fetchOptions with
    | FetchRejected reason => Rejected (Some (transformError reason url))
    | FetchResponded response =>
        if negb (FetchResponse.ok response) then
          Rejected (Some (transformError (Some (httpError response)) url))
        else
          match parseBody this (FetchResponse.text response) with
          | Some parsedData =>
              Resolved {| I18nextResponse.status := FetchResponse.status response;
                          I18nextResponse.data := parsedData |}
          | None =>
              Rejected (Some (transformError (Some (parseFailure url)) url))
          end
    end.

(** [async request(options, url, payload?)].  The query key is computed
    before the [try]: an error thrown there rejects the returned promise as
    it is, without passing through [transformError]. *)
Definition request (this : t) (opts : I18nextRequestOptions.t)
    (url : string) (payload : JSValue) : Promise I18nextResponse.t :=
  let mergedOptions := I18nextRequestOptions.spread (options this) opts in
  let tq := I18nextRequestOptions.tanstackQuery mergedOptions in
  match queryKeys with
  | Thrown error => Rejected (Some error)
  | Returned keys =>
      let queryKey :=
        if truthy payload then QueryKeysObject.create keys url payload
        else QueryKeysObject.load keys url payload in
      let queryOptions :=
        {| QueryOptions.queryKey := queryKey;
           QueryOptions.queryFn := createQueryFn this url payload;
           QueryOptions.staleTime := tq ≫= TanStackQueryOptions.staleTime;
           QueryOptions.cacheTime := tq ≫= TanStackQueryOptions.cacheTime;
           QueryOptions.retry := fun failureCount error =>
             let maxRetries :=
               match tq ≫= TanStackQueryOptions.retry with
               | Some (RetryCount n) => n
               | _ => 3
               end in
             if Z.leb maxRetries failureCount then false
             else shouldRetry error;
           QueryOptions.retryDelay :=
             match tq ≫= TanStackQueryOptions.retryDelay with
             | Some (RetryDelayMs ms) =>
                 if Z.eqb ms 0 then RetryDelayFn getRetryDelay
                 else RetryDelayMs ms
             | Some (RetryDelayFn f) => RetryDelayFn f
             | None => RetryDelayFn getRetryDelay
             end;
           QueryOptions.refetchOnWindowFocus :=
             default false (tq ≫= TanStackQueryOptions.refetchOnWindowFocus);
           QueryOptions.refetchOnReconnect :=
             default true (tq ≫= TanStackQueryOptions.refetchOnReconnect) |} in
      match QueryClient.fetchQuery (queryClient this) queryOptions with
      | Resolved response => Resolved response
      | Rejected reason => Rejected (Some (transformError reason url))
      end
  end.

(** The sentinel [{ status: 0 } as I18nextResponse]; it has no [data]. *)
Definition retrySentinel : I18nextResponse.t :=
  {| I18nextResponse.status := 0; I18nextResponse.data := JUndefined |}.

(** [async requestWithCallback(options, url, payload, callback)]: the
    arguments the callback is invoked with. *)
Definition requestWithCallback (this : t) (opts : I18nextRequestOptions.t)
    (url : string) (payload : JSValue) : CallbackCall :=
  match request this opts url payload with
  | Resolved response =>
      {| callbackError := JNull; callbackResponse := Some response |}
  | Rejected reason =>
      let processedError := processForCallback reason in
      {| callbackError := Processed.error processedError;
         callbackResponse :=
           if Processed.retry processedError then Some retrySentinel
           else None |}
  end.

End Host.

(** The filter handed to [queryClient.invalidateQueries]. *)
Inductive QueryFilter :=
  | ByPredicate (predicate : QueryKey -> bool)
  | ByQueryKey (queryKey : QueryKey).

(** [invalidateQueries(urlPattern?)]: the filter handed to the client, or
    the error thrown while it is built. *)
Definition invalidateQueries (urlPattern : option string)
    : Completion QueryFilter :=
  let byPrefix :=
    match queryKeys with
    | Thrown error => Thrown error
    | Returned keys => Returned (ByQueryKey (QueryKeysObject.all keys))
    end in
  match urlPattern with
  | Some pattern =>
      if truthyStr (Some pattern) then
        Returned (ByPredicate (fun queryKey =>
          match queryKey !! 2%nat with
          | Some (JStr url) => includes pattern url
          | _ => false
          end))
      else byPrefix
  | None => byPrefix
  end.

(** [getCachedData(url, payload?)] *)
Definition getCachedData (this : t) (url : string) (payload : JSValue)
    : Completion (option I18nextResponse.t) :=
  match queryKeys with
  | Thrown error => Thrown error
  | Returned keys =>
      let queryKey :=
        if truthy payload then QueryKeysObject.create keys url payload
        else QueryKeysObject.load keys url payload in
      Returned (QueryClient.getQueryData (queryClient this) queryKey)
  end.

End TanStackI18nextBackend.

(** ** The cache client's key matching and the loader's choice of path *)

(** Modelled from the spec: how the external cache client matches a filter
    against a cached key (the client is a third-party library).  A key
    filter matches the keys it is a prefix of ("an invalidate-by-key-prefix
    call", with structural equality of elements); a predicate filter
    matches the keys it accepts.  A call that threw before it reached the
    client matches nothing. *)
Definition matchesFilter
    (filter : Completion TanStackI18nextBackend.QueryFilter)
    (key : QueryKey) : Prop :=
  match filter with
  | Returned (TanStackI18nextBackend.ByPredicate predicate) =>
      predicate key = true
  | Returned (TanStackI18nextBackend.ByQueryKey prefixKey) =>
      prefixKey `prefix_of` key
  | Thrown _ => False
  end.

(** Modelled from the spec: the Resource Loader's choice between the
    cache-backed and the direct-transport path; the loader itself
    (lib/index.js) is not among the sources.  The gate is [types.ts]'s
    [isTanstackQueryEnabled]; on the cache-backed path the loader goes
    through [TanStackI18nextBackend.requestWithCallback]; on the direct
    path it "performs the transport call directly", a call that does not
    honor the cache configuration. *)
Module ResourceLoader.

Inductive Path := CacheBacked | DirectTransport.

Definition path (options : I18nextRequestOptions.t) : Path :=
  if Types.isTanstackQueryEnabled options then CacheBacked
  else DirectTransport.

(** The options without the cache configuration. *)
Definition transportOptions (options : I18nextRequestOptions.t)
    : I18nextRequestOptions.t :=
  {| I18nextRequestOptions.parse := I18nextRequestOptions.parse options;
     I18nextRequestOptions.crossDomain :=
       I18nextRequestOptions.crossDomain options;
     I18nextRequestOptions.withCredentials :=
       I18nextRequestOptions.withCredentials options;
     I18nextRequestOptions.queryStringParams :=
       I18nextRequestOptions.queryStringParams options;
     I18nextRequestOptions.customHeaders :=
       I18nextRequestOptions.customHeaders options;
     I18nextRequestOptions.requestOptions :=
       I18nextRequestOptions.requestOptions options;
     I18nextRequestOptions.stringify := I18nextRequestOptions.stringify options;
     I18nextRequestOptions.queryClient := None;
     I18nextRequestOptions.tanstackQuery := None |}.

Section Loader.

Variable JSON_stringify : JSValue -> JSValue.
Variable JSON_parse : string -> option JSValue.
Variable encodeURIComponent : string -> string.
Variable nodeProcess : option NodeProcess.t.
Variable fetch : string -> RequestInit.t -> FetchOutcome.

(** The direct transport call of the loader, by its outcome. *)
Variable directRequest :
  I18nextRequestOptions.t -> string -> JSValue -> CallbackCall.

Definition load (options : I18nextRequestOptions.t) (url : string)
    (payload : JSValue) : CallbackCall :=
  match path options, I18nextRequestOptions.queryClient options with
  | CacheBacked, Some client =>
      TanStackI18nextBackend.requestWithCallback
        JSON_stringify JSON_parse encodeURIComponent nodeProcess fetch
        (TanStackI18nextBackend.constructor client (Some options))
        options url payload
  | _, _ => directRequest (transportOptions options) url payload
  end.

End Loader.

End ResourceLoader.

(** Modelled from the spec: the option defaults of the plugin's own class
    ([Backend], lib/index.js), which is not among the sources; the tests
    and scripts under the sources construct it as
    [new Backend(services, options)] and read [backend.options].  The
    spec, section 6: "all fields are optional, with the documented
    defaults: cache integration disabled by default, freshness window 5
    minutes, retention window 10 minutes, 3 retries, refetch-on-focus
    false, refetch-on-reconnect true"; section 4.3 names the exponential
    backoff as the retry-delay function.  Each field of the cache
    configuration is optional on its own, so a default stands in for each
    field that the supplied options leave out. *)
Module Backend.

Definition defaultTanstackQuery : TanStackQueryOptions.t :=
  {| TanStackQueryOptions.enabled := Some false;
     TanStackQueryOptions.staleTime := Some (5 * 60 * 1000);
     TanStackQueryOptions.cacheTime := Some (10 * 60 * 1000);
     TanStackQueryOptions.retry := Some (RetryCount 3);
     TanStackQueryOptions.retryDelay :=
       Some (RetryDelayFn I18nextErrorHandler.getRetryDelay);
     TanStackQueryOptions.refetchOnWindowFocus := Some false;
     TanStackQueryOptions.refetchOnReconnect := Some true |}.

(** The cache configuration after the defaults were filled in. *)
Definition withDefaults (supplied : option TanStackQueryOptions.t)
    : TanStackQueryOptions.t :=
  match supplied with
  | None => defaultTanstackQuery
  | Some tq =>
      {| TanStackQueryOptions.enabled :=
           override (TanStackQueryOptions.enabled tq)
             (TanStackQueryOptions.enabled defaultTanstackQuery);
         TanStackQueryOptions.staleTime :=
           override (TanStackQueryOptions.staleTime tq)
             (TanStackQueryOptions.staleTime defaultTanstackQuery);
         TanStackQueryOptions.cacheTime :=
           override (TanStackQueryOptions.cacheTime tq)
             (TanStackQueryOptions.cacheTime defaultTanstackQuery);
         TanStackQueryOptions.retry :=
           override (TanStackQueryOptions.retry tq)
             (TanStackQueryOptions.retry defaultTanstackQuery);
         TanStackQueryOptions.retryDelay :=
           override (TanStackQueryOptions.retryDelay tq)
             (TanStackQueryOptions.retryDelay defaultTanstackQuery);
         TanStackQueryOptions.refetchOnWindowFocus :=
           override (TanStackQueryOptions.refetchOnWindowFocus tq)
             (TanStackQueryOptions.refetchOnWindowFocus defaultTanstackQuery);
         TanStackQueryOptions.refetchOnReconnect :=
           override (TanStackQueryOptions.refetchOnReconnect tq)
             (TanStackQueryOptions.refetchOnReconnect defaultTanstackQuery) |}
  end.

(** [backend.options] after [new Backend(services, options)]. *)
Definition constructedOptions (options : I18nextRequestOptions.t)
    : I18nextRequestOptions.t :=
  I18nextRequestOptions.spread options
    {| I18nextRequestOptions.parse := None;
       I18nextRequestOptions.crossDomain := None;
       I18nextRequestOptions.withCredentials := None;
       I18nextRequestOptions.queryStringParams := None;
       I18nextRequestOptions.customHeaders := None;
       I18nextRequestOptions.requestOptions := None;
       I18nextRequestOptions.stringify := None;
       I18nextRequestOptions.queryClient := None;
       I18nextRequestOptions.tanstackQuery :=
         Some (withDefaults (I18nextRequestOptions.tanstackQuery options)) |}.

End Backend.

(** ** react-native-config.ts *)

(** The retry policies of [createReactNativeQueryClient] and of
    [reactNativeI18nextQueryConfig]; both units of the file define them
    alike.  The error is typed [any]; [None] is a [null]/[undefined] one. *)
Module ReactNativeConfig.

(** [defaultOptions.queries.retry]:
    [(failureCount, error) =>]
    [error?.status >= 400 && error?.status < 500 ? false : failureCount < 3] *)
Definition queriesRetry (failureCount : Z) (error : option I18nextError.t)
    : bool :=
  if I18nextErrorHandler.optIn I18nextErrorHandler.in4xx
       (error ≫= I18nextError.status)
  then false
  else Z.ltb failureCount 3.

(** [defaultOptions.queries.retryDelay]:
    [Math.min(1000 * 2 ** attemptIndex, 30000)] *)
Definition queriesRetryDelay (attemptIndex : Z) : Z :=
  Z.min (1000 * 2 ^ attemptIndex) 30000.

(** [reactNativeI18nextQueryConfig.retry] *)
Definition i18nextRetry (failureCount : Z) (error : option I18nextError.t)
    : bool :=
  if I18nextErrorHandler.optIn I18nextErrorHandler.in4xx
       (error ≫= I18nextError.status)
  then false
  else Z.ltb failureCount 2.

(** [reactNativeI18nextQueryConfig.retryDelay]:
    [Math.min(2000 * attemptIndex, 10000)] *)
Definition i18nextRetryDelay (attemptIndex : Z) : Z :=
  Z.min (2000 * attemptIndex) 10000.

End ReactNativeConfig.

(** ** Sample inputs *)

Module Samples.

(** A raw error with a name, a message and possibly a status, as [fetch]
    or the query function raise them. *)
Definition rawError (n : string) (m : string) (s : option Z) : I18nextError.t :=
  {| I18nextError.name := Some n; I18nextError.message := Some m;
     I18nextError.status := s; I18nextError.retry := None;
     I18nextError.url := None; I18nextError.response := None |}.

(** A Response-like raw error: its [response] says 404 while its own
    [status] says 503. *)
Definition responseError : I18nextError.t :=
  {| I18nextError.name := Some "Error";
     I18nextError.message := Some "Request failed";
     I18nextError.status := Some 503; I18nextError.retry := None;
     I18nextError.url := None;
     I18nextError.response :=
       Some {| I18nextError.response_status := Some 404 |} |}.

(** A host whose [JSON.parse] accepts only the empty object, and a
    transport that always answers 200 with a given body. *)
Definition parseOnlyEmptyObject (text : string) : option JSValue :=
  if String.eqb text "{}" then Some (JObj ∅) else None.

Definition stringifyOpaque (_ : JSValue) : JSValue := JStr "{}".

Definition answering (body : string) (_ : string) (_ : RequestInit.t)
    : FetchOutcome :=
  FetchResponded {| FetchResponse.ok := true; FetchResponse.status := 200;
                    FetchResponse.statusText := "OK";
                    FetchResponse.text := body |}.

(** A cache client that runs the query function once and caches nothing. *)
Definition passThroughClient : QueryClient.t :=
  {| QueryClient.fetchQuery := fun queryOptions =>
       QueryOptions.queryFn queryOptions tt;
     QueryClient.getQueryData := fun _ => None |}.

(** The payload of a save request. *)
Definition samplePayload : JSValue := JObj {[ "key" := JStr "value" ]}.

(** A backend built with no options at all. *)
Definition plainBackend : TanStackI18nextBackend.t :=
  TanStackI18nextBackend.constructor passThroughClient None.

(** Options whose transport override forces the method, as in the README's
    [requestOptions: (payload) => ({ method: 'GET' })]. *)
Definition optionsForcingGet : I18nextRequestOptions.t :=
  {| I18nextRequestOptions.parse := None;
     I18nextRequestOptions.crossDomain := None;
     I18nextRequestOptions.withCredentials := None;
     I18nextRequestOptions.queryStringParams := None;
     I18nextRequestOptions.customHeaders := None;
     I18nextRequestOptions.requestOptions :=
       Some (Fn (fun _ =>
         {| RequestInit.method := Some "GET"; RequestInit.headers := None;
            RequestInit.body := None; RequestInit.credentials := None;
            RequestInit.mode := None |}));
     I18nextRequestOptions.stringify := None;
     I18nextRequestOptions.queryClient := None;
     I18nextRequestOptions.tanstackQuery := None |}.

(** Options whose custom headers carry a content type of their own. *)
Definition optionsWithContentType : I18nextRequestOptions.t :=
  {| I18nextRequestOptions.parse := None;
     I18nextRequestOptions.crossDomain := None;
     I18nextRequestOptions.withCredentials := None;
     I18nextRequestOptions.queryStringParams := None;
     I18nextRequestOptions.customHeaders :=
       Some (Plain {[ "Content-Type" := "text/plain";
                      "authorization" := "foo" ]});
     I18nextRequestOptions.requestOptions := None;
     I18nextRequestOptions.stringify := None;
     I18nextRequestOptions.queryClient := None;
     I18nextRequestOptions.tanstackQuery := None |}.

(** A transport that always answers with a non-ok status. *)
Definition refusing (code : Z) (reason : string) (_ : string)
    (_ : RequestInit.t) : FetchOutcome :=
  FetchResponded {| FetchResponse.ok := false; FetchResponse.status := code;
                    FetchResponse.statusText := reason;
                    FetchResponse.text := "" |}.

(** A cache block holding only the [enabled] flag, and options holding
    only a cache block and possibly a client. *)
Definition cacheBlock (flag : option bool) : TanStackQueryOptions.t :=
  {| TanStackQueryOptions.enabled := flag;
     TanStackQueryOptions.staleTime := None;
     TanStackQueryOptions.cacheTime := None;
     TanStackQueryOptions.retry := None;
     TanStackQueryOptions.retryDelay := None;
     TanStackQueryOptions.refetchOnWindowFocus := None;
     TanStackQueryOptions.refetchOnReconnect := None |}.

Definition cacheOptions (client : option QueryClient.t)
    (block : option TanStackQueryOptions.t) : I18nextRequestOptions.t :=
  {| I18nextRequestOptions.parse := None;
     I18nextRequestOptions.crossDomain := None;
     I18nextRequestOptions.withCredentials := None;
     I18nextRequestOptions.queryStringParams := None;
     I18nextRequestOptions.customHeaders := None;
     I18nextRequestOptions.requestOptions := None;
     I18nextRequestOptions.stringify := None;
     I18nextRequestOptions.queryClient := client;
     I18nextRequestOptions.tanstackQuery := block |}.

(** A direct transport call that finds the served translation file. *)
Definition directServing (_ : I18nextRequestOptions.t) (_ : string)
    (_ : JSValue) : CallbackCall :=
  {| callbackError := JNull;
     callbackResponse :=
       Some {| I18nextResponse.status := 200;
               I18nextResponse.data := JObj {[ "key" := JStr "passing" ]} |} |}.

(** Options with a custom body parser that takes the text as a string
    value and refuses the empty body. *)
Definition optionsWithParse : I18nextRequestOptions.t :=
  {| I18nextRequestOptions.parse :=
       Some (fun text => if String.eqb text "" then None else Some (JStr text));
     I18nextRequestOptions.crossDomain := None;
     I18nextRequestOptions.withCredentials := None;
     I18nextRequestOptions.queryStringParams := None;
     I18nextRequestOptions.customHeaders := None;
     I18nextRequestOptions.requestOptions := None;
     I18nextRequestOptions.stringify := None;
     I18nextRequestOptions.queryClient := None;
     I18nextRequestOptions.tanstackQuery := None |}.

(** Options whose transport override brings headers of its own. *)
Definition optionsWithTransportHeaders : I18nextRequestOptions.t :=
  {| I18nextRequestOptions.parse := None;
     I18nextRequestOptions.crossDomain := None;
     I18nextRequestOptions.withCredentials := None;
     I18nextRequestOptions.queryStringParams := None;
     I18nextRequestOptions.customHeaders :=
       Some (Plain {[ "authorization" := "foo" ]});
     I18nextRequestOptions.requestOptions :=
       Some (Plain
         {| RequestInit.method := None;
            RequestInit.headers := Some {[ "X-Requested-With" := "app" ]};
            RequestInit.body := None; RequestInit.credentials := None;
            RequestInit.mode := None |});
     I18nextRequestOptions.stringify := None;
     I18nextRequestOptions.queryClient := None;
     I18nextRequestOptions.tanstackQuery := None |}.

(** Options with a serializer of their own. *)
Definition optionsWithStringify : I18nextRequestOptions.t :=
  {| I18nextRequestOptions.parse := None;
     I18nextRequestOptions.crossDomain := None;
     I18nextRequestOptions.withCredentials := None;
     I18nextRequestOptions.queryStringParams := None;
     I18nextRequestOptions.customHeaders := None;
     I18nextRequestOptions.requestOptions := None;
     I18nextRequestOptions.stringify := Some (fun _ => "key=value");
     I18nextRequestOptions.queryClient := None;
     I18nextRequestOptions.tanstackQuery := None |}.

(** A cache block that sets only the retry option. *)
Definition retryBlock (r : RetryOption) : TanStackQueryOptions.t :=
  {| TanStackQueryOptions.enabled := None;
     TanStackQueryOptions.staleTime := None;
     TanStackQueryOptions.cacheTime := None;
     TanStackQueryOptions.retry := Some r;
     TanStackQueryOptions.retryDelay := None;
     TanStackQueryOptions.refetchOnWindowFocus := None;
     TanStackQueryOptions.refetchOnReconnect := None |}.

Definition backendWith (options : I18nextRequestOptions.t)
    : TanStackI18nextBackend.t :=
  TanStackI18nextBackend.constructor passThroughClient (Some options).

End Samples.

(** * Properties *)

(** ** Strings *)

Section StringFacts.

Lemma startsWith_toLowerCase needle hay :
  startsWith needle hay = true ->
  startsWith (toLowerCase needle) (toLowerCase hay) = true.
Proof.
  revert hay. induction needle as [|a needle IH]; intros [|b hay]; simpl;
    try done.
  intros [Hab Hrest]%andb_prop. apply Ascii.eqb_eq in Hab as ->.
  rewrite Ascii.eqb_refl. simpl. by apply IH.
Qed.

Lemma includes_toLowerCase needle hay :
  includes needle hay = true ->
  includes (toLowerCase needle) (toLowerCase hay) = true.
Proof.
  induction hay as [|b hay IH]; simpl.
  - rewrite !orb_false_r. apply startsWith_toLowerCase.
  - intros [H|H]%orb_prop; apply orb_true_iff.
    + left. by apply (startsWith_toLowerCase needle (String b hay)).
    + right. by apply IH.
Qed.

Lemma includes_empty_hay needle :
  includes needle "" = true -> needle = "".
Proof. by destruct needle. Qed.

Lemma someIncludes_intro terms term hay :
  term ∈ terms -> includes term hay = true -> someIncludes terms hay = true.
Proof.
  intros Hin Hinc. apply existsb_exists. exists term.
  split; [by apply list_elem_of_In | done].
Qed.

End StringFacts.

(** ** The error classifier *)

Section Classifier.
Import I18nextError I18nextErrorHandler Samples.

Lemma networkErrorTerms_lowercase term :
  term ∈ networkErrorTerms -> toLowerCase term = term ∧ term ≠ "".
Proof.
  unfold networkErrorTerms. rewrite !elem_of_cons, elem_of_nil.
  intros H. repeat (destruct H as [->|H]; [by split|]). done.
Qed.

(** A message holding a network-failure term passes the classifier's
    network test, which looks at the lower-cased message. *)
Lemma network_message_detected term m :
  term ∈ networkErrorTerms -> includes term m = true ->
  truthyStr (Some m) && someIncludes networkErrorTerms (toLowerCase m) = true.
Proof.
  intros Hin Hinc. destruct (networkErrorTerms_lowercase term Hin) as [Hlow Hne].
  apply andb_true_intro. split.
  - destruct m; [by apply includes_empty_hay in Hinc | done].
  - apply (someIncludes_intro _ term); [done|].
    rewrite <- Hlow. by apply includes_toLowerCase.
Qed.

(** A carried status inside 400..599 makes [transformError] enter its
    status branch. *)
Lemma carriedStatus_enters e n :
  carriedStatus e = Some n -> n ≠ 0 ->
  bool_decide (is_Some (response e)) || truthyNum (status e) = true.
Proof.
  unfold carriedStatus, orNum. intros H Hn.
  destruct (response e) as [r|]; [done|]. simpl in *.
  rewrite H. simpl. by apply negb_true_iff, Z.eqb_neq.
Qed.

Lemma in5xx_spec n : in5xx n = true <-> 500 <= n < 600.
Proof. unfold in5xx. rewrite andb_true_iff. lia. Qed.

Lemma in4xx_spec n : in4xx n = true <-> 400 <= n < 500.
Proof. unfold in4xx. rewrite andb_true_iff. lia. Qed.

Lemma in4xx_not_in5xx n : in4xx n = true -> in5xx n = false.
Proof.
  rewrite in4xx_spec. intros H. apply not_true_iff_false.
  rewrite in5xx_spec. lia.
Qed.

Lemma in5xx_not_in4xx n : in5xx n = true -> in4xx n = false.
Proof.
  rewrite in5xx_spec. intros H. apply not_true_iff_false.
  rewrite in4xx_spec. lia.
Qed.

Lemma six_terms_detected m :
  includes "failed" m = true ∨ includes "fetch" m = true ∨
  includes "network" m = true ∨ includes "load" m = true ∨
  includes "timeout" m = true ∨ includes "abort" m = true ->
  truthyStr (Some m) && someIncludes networkErrorTerms (toLowerCase m) = true.
Proof.
  assert (∀ term, term ∈ ["failed"; "fetch"; "network"; "load"; "timeout";
                          "abort"] -> term ∈ networkErrorTerms) as Hin
    by (intros term H; exact H).
  intros [H|[H|[H|[H|[H|H]]]]];
    (eapply network_message_detected; [apply Hin | exact H]);
    rewrite !elem_of_cons; tauto.
Qed.

(** C1. A raw error that carries an HTTP status (in its own [status]
    property, or in the [status] of its [response], which is read first)
    is classified by it: a status in [500,600) gives retry = true, a status
    in [400,500) gives retry = false, and in both cases the message is
    "failed loading <url>; status code: <status>".  A raw error without
    status and response whose message contains one of "failed", "fetch",
    "network", "load", "timeout", "abort" gives retry = true. *)
Theorem transformError_classifies_by_status (e : I18nextError.t) (u : string) :
  (∀ n,
     (response e = None ∧ status e = Some n) ∨
     (∃ r, response e = Some r ∧ response_status r = Some n) ∨
     (∃ r, response e = Some r ∧ response_status r = None ∧
           status e = Some n) ->
     (500 <= n < 600 ->
        retry (transformError (Some e) u) = Some true ∧
        message (transformError (Some e) u)
          = Some ("failed loading " +:+ u +:+ "; status code: " +:+
                  numToString n)) ∧
     (400 <= n < 500 ->
        retry (transformError (Some e) u) = Some false ∧
        message (transformError (Some e) u)
          = Some ("failed loading " +:+ u +:+ "; status code: " +:+
                  numToString n))) ∧
  (∀ m, response e = None -> status e = None -> message e = Some m ->
     includes "failed" m = true ∨ includes "fetch" m = true ∨
     includes "network" m = true ∨ includes "load" m = true ∨
     includes "timeout" m = true ∨ includes "abort" m = true ->
     retry (transformError (Some e) u) = Some true).
Proof.
  split.
  - intros n Hcarries.
    assert (400 <= n < 600 -> carriedStatus e = Some n) as Hs.
    { intros Hn. unfold carriedStatus, orNum.
      destruct Hcarries as [[-> ->]|[(r & -> & Hr)|(r & -> & Hr & ->)]];
        rewrite ?Hr; simpl; [done | | done].
      assert (Z.eqb n 0 = false) as -> by (apply Z.eqb_neq; lia). done. }
    split; intros Hn.
    + specialize (Hs ltac:(lia)). unfold transformError.
      rewrite (carriedStatus_enters e n Hs) by lia. rewrite Hs. simpl.
      apply in5xx_spec in Hn. by rewrite Hn.
    + specialize (Hs ltac:(lia)). unfold transformError.
      rewrite (carriedStatus_enters e n Hs) by lia. rewrite Hs. simpl.
      apply in4xx_spec in Hn. rewrite (in4xx_not_in5xx n Hn), Hn. done.
  - intros m Hresp Hstatus Hm Hterm.
    pose proof (six_terms_detected m Hterm) as Hnet.
    unfold transformError. rewrite Hresp, Hstatus. simpl.
    unfold classifyByMessage.
    change (Some e ≫= message) with (message e). by rewrite Hm, Hnet.
Qed.

Lemma transformError_classifies_by_status_witness :
  (retry (transformError
            (Some (rawError "Error" "HTTP 503: Service Unavailable" (Some 503)))
            "/locales/en/test.json") = Some true ∧
   message (transformError
            (Some (rawError "Error" "HTTP 503: Service Unavailable" (Some 503)))
            "/locales/en/test.json")
     = Some "failed loading /locales/en/test.json; status code: 503") ∧
  (retry (transformError (Some responseError) "/locales/en/test.json")
     = Some false ∧
   message (transformError (Some responseError) "/locales/en/test.json")
     = Some "failed loading /locales/en/test.json; status code: 404") ∧
  retry (transformError (Some (rawError "Error" "it failed" None)) "/x")
    = Some true ∧
  retry (transformError (Some (rawError "Error" "fetch error" None)) "/x")
    = Some true ∧
  retry (transformError (Some (rawError "Error" "network down" None)) "/x")
    = Some true ∧
  retry (transformError (Some (rawError "Error" "cannot load" None)) "/x")
    = Some true ∧
  retry (transformError (Some (rawError "Error" "timeout" None)) "/x")
    = Some true ∧
  retry (transformError (Some (rawError "Error" "abort" None)) "/x")
    = Some true.
Proof.
  refine (conj _ (conj _ (conj _ (conj _ (conj _ (conj _ (conj _ _))))))).
  - destruct (proj1 (proj1 (transformError_classifies_by_status
                              (rawError "Error" "HTTP 503: Service Unavailable"
                                 (Some 503)) "/locales/en/test.json")
                       503 (or_introl (conj eq_refl eq_refl))) ltac:(lia))
      as [Hretry Hmessage].
    split; [exact Hretry | rewrite Hmessage; reflexivity].
  - destruct (proj2 (proj1 (transformError_classifies_by_status
                              responseError "/locales/en/test.json")
                       404 (or_intror (or_introl
                              (ex_intro _ _ (conj eq_refl eq_refl)))))
                ltac:(lia))
      as [Hretry Hmessage].
    split; [exact Hretry | rewrite Hmessage; reflexivity].
  - apply (proj2 (transformError_classifies_by_status _ _) "it failed");
      try reflexivity. tauto.
  - apply (proj2 (transformError_classifies_by_status _ _) "fetch error");
      try reflexivity. tauto.
  - apply (proj2 (transformError_classifies_by_status _ _) "network down");
      try reflexivity. tauto.
  - apply (proj2 (transformError_classifies_by_status _ _) "cannot load");
      try reflexivity. tauto.
  - apply (proj2 (transformError_classifies_by_status _ _) "timeout");
      try reflexivity. tauto.
  - apply (proj2 (transformError_classifies_by_status _ _) "abort");
      try reflexivity. tauto.
Defined.

(** The body-parsing failure of the query function: its message starts with
    "Failed", so the network test, which comes first and looks for "failed"
    in the lower-cased message, claims it before the parse test. *)
Lemma parseFailure_classified_as_network (u : string) :
  transformError (Some (TanStackI18nextBackend.parseFailure u)) u
  = {| name := Some "Error";
       message := Some ("failed loading " +:+ u +:+
                        ": Failed to parse response from " +:+ u);
       status := None; retry := Some true; url := Some u;
       response := None |}.
Proof. reflexivity. Qed.

(** What the parse test alone gives for the same error, were it reached. *)
Lemma parseFailure_parse_branch (u : string) :
  classifyParseOrDefault (newError u)
    (Some (TanStackI18nextBackend.parseFailure u)) u
  = {| name := Some "Error";
       message := Some ("failed parsing " +:+ u +:+ " to json");
       status := None; retry := Some false; url := Some u;
       response := None |}.
Proof. reflexivity. Qed.

(** A native [JSON.parse] error handed to the classifier as it is does
    reach the parse test. *)
Example native_syntax_error_not_retryable :
  retry (transformError
           (Some (rawError "SyntaxError"
                    "Unexpected token } in JSON at position 5" None))
           "/locales/en/test.json") = Some false.
Proof. reflexivity. Qed.

Section QueryFunction.

Variable JSON_stringify : JSValue -> JSValue.
Variable JSON_parse : string -> option JSValue.
Variable encodeURIComponent : string -> string.
Variable nodeProcess : option NodeProcess.t.
Variable fetch : string -> RequestInit.t -> FetchOutcome.

Local Abbreviation createQueryFn :=
  (TanStackI18nextBackend.createQueryFn
     JSON_stringify JSON_parse encodeURIComponent nodeProcess fetch).
Local Abbreviation buildFetchOptions :=
  (TanStackI18nextBackend.buildFetchOptions JSON_stringify nodeProcess).
Local Abbreviation addQueryString :=
  (TanStackI18nextBackend.addQueryString encodeURIComponent).
Local Abbreviation parseBody := (TanStackI18nextBackend.parseBody JSON_parse).

(** C2, on the code.  Whenever the transport answers with an ok response
    whose body fails to parse, the query function rejects with a normalized
    error that has retry = true and the message
    "failed loading <url>: Failed to parse response from <url>", and the
    retry predicate [shouldRetry] accepts it; the claim asks for
    retry = false and a parse-failure message. *)
Theorem createQueryFn_parse_failure_is_retryable
    (this : TanStackI18nextBackend.t) (u : string) (payload : JSValue)
    (r : FetchResponse.t) :
  fetch (addQueryString u
           (I18nextRequestOptions.queryStringParams
              (TanStackI18nextBackend.options this)))
        (buildFetchOptions this payload) = FetchResponded r ->
  FetchResponse.ok r = true ->
  parseBody this (FetchResponse.text r) = None ->
  ∃ e, createQueryFn this u payload tt = Rejected (Some e) ∧
       retry e = Some true ∧
       message e = Some ("failed loading " +:+ u +:+
                         ": Failed to parse response from " +:+ u) ∧
       shouldRetry e = true.
Proof.
  intros Hfetch Hok Hparse. eexists. split.
  - unfold TanStackI18nextBackend.createQueryFn.
    rewrite Hfetch, Hok, Hparse. simpl negb. cbv iota.
    rewrite parseFailure_classified_as_network. reflexivity.
  - done.
Qed.

End QueryFunction.

Lemma createQueryFn_parse_failure_is_retryable_witness :
  ∃ e, TanStackI18nextBackend.createQueryFn
         stringifyOpaque parseOnlyEmptyObject id None (answering "{")
         plainBackend "/locales/en/test.json" JUndefined tt
       = Rejected (Some e) ∧
       retry e = Some true ∧
       message e = Some ("failed loading " +:+ "/locales/en/test.json" +:+
                         ": Failed to parse response from " +:+
                         "/locales/en/test.json") ∧
       shouldRetry e = true.
Proof.
  apply (createQueryFn_parse_failure_is_retryable
           stringifyOpaque parseOnlyEmptyObject id None (answering "{")
           plainBackend "/locales/en/test.json" JUndefined
           {| FetchResponse.ok := true; FetchResponse.status := 200;
              FetchResponse.statusText := "OK"; FetchResponse.text := "{" |});
    reflexivity.
Defined.

End Classifier.

(** ** The retry delay *)

Section RetryDelay.
Import I18nextErrorHandler.

Lemma pow2_pos i : 0 <= i -> 1 <= 2 ^ i.
Proof. intros Hi. change 1 with (2 ^ 0). apply Z.pow_le_mono_r; lia. Qed.

Lemma pow2_mono i j : 0 <= i <= j -> 2 ^ i <= 2 ^ j.
Proof. intros H. apply Z.pow_le_mono_r; lia. Qed.

Lemma getRetryDelay_succ i :
  0 <= i -> getRetryDelay (i + 1) = Z.min (2 * getRetryDelay i) 30000.
Proof.
  intros Hi. unfold getRetryDelay.
  replace (i + 1) with (Z.succ i) by lia. rewrite Z.pow_succ_r by done. lia.
Qed.

(** C3. For every attempt index i >= 0 the delay is
    min(1000 * 2^i, 30000): it is 1000 at attempt 0, never decreases as the
    index grows, doubles from one attempt to the next (exactly while the
    doubled value stays under the ceiling, i.e. up to attempt 4, and cut
    off at the ceiling in general), never exceeds 30000, and is 30000, not
    32000, at attempt 5. *)
Theorem getRetryDelay_exponential_capped (i : Z) :
  0 <= i ->
  getRetryDelay i = Z.min (1000 * 2 ^ i) 30000 ∧
  getRetryDelay 0 = 1000 ∧
  (∀ j, i <= j -> getRetryDelay i <= getRetryDelay j) ∧
  getRetryDelay (i + 1) = Z.min (2 * getRetryDelay i) 30000 ∧
  (i <= 3 -> getRetryDelay (i + 1) = 2 * getRetryDelay i) ∧
  1000 <= getRetryDelay i <= 30000 ∧
  getRetryDelay 5 = 30000 ∧ getRetryDelay 5 ≠ 32000.
Proof.
  intros Hi. repeat split; try done.
  - intros j Hj. unfold getRetryDelay.
    pose proof (pow2_mono i j). lia.
  - by apply getRetryDelay_succ.
  - intros Hle. rewrite getRetryDelay_succ by done. unfold getRetryDelay.
    pose proof (pow2_mono i 3). change (2 ^ 3) with 8 in *. lia.
  - unfold getRetryDelay. pose proof (pow2_pos i). lia.
  - unfold getRetryDelay. lia.
Qed.

Lemma getRetryDelay_exponential_capped_witness :
  getRetryDelay 2 = Z.min (1000 * 2 ^ 2) 30000 ∧
  getRetryDelay 0 = 1000 ∧
  (∀ j, 2 <= j -> getRetryDelay 2 <= getRetryDelay j) ∧
  getRetryDelay (2 + 1) = Z.min (2 * getRetryDelay 2) 30000 ∧
  (2 <= 3 -> getRetryDelay (2 + 1) = 2 * getRetryDelay 2) ∧
  1000 <= getRetryDelay 2 <= 30000 ∧
  getRetryDelay 5 = 30000 ∧ getRetryDelay 5 ≠ 32000.
Proof. apply (getRetryDelay_exponential_capped 2). lia. Defined.

Example getRetryDelay_first_attempts :
  map getRetryDelay [0; 1; 2; 3; 4; 5; 6]
  = [1000; 2000; 4000; 8000; 16000; 30000; 30000].
Proof. reflexivity. Qed.

End RetryDelay.

(** ** The request builder *)

Section RequestBuilder.
Import Samples.

Variable JSON_stringify : JSValue -> JSValue.
Variable nodeProcess : option NodeProcess.t.

Local Abbreviation buildFetchOptions :=
  (TanStackI18nextBackend.buildFetchOptions JSON_stringify nodeProcess).
Local Abbreviation builtHeaders :=
  (TanStackI18nextBackend.builtHeaders nodeProcess).
Local Abbreviation stringifyPayload :=
  (TanStackI18nextBackend.stringifyPayload JSON_stringify).
Local Abbreviation resolvedRequestOptions :=
  TanStackI18nextBackend.resolvedRequestOptions.

(** The trailing [...requestOptions] decides every property it has. *)
Lemma buildFetchOptions_method this payload :
  RequestInit.method (buildFetchOptions this payload)
  = Some (default (if truthy payload then "POST" else "GET")
            (RequestInit.method (resolvedRequestOptions this payload))).
Proof.
  unfold TanStackI18nextBackend.buildFetchOptions. simpl.
  by destruct (RequestInit.method _).
Qed.

Lemma buildFetchOptions_body this payload :
  RequestInit.body (buildFetchOptions this payload)
  = Some (default (if truthy payload then stringifyPayload this payload
                   else JUndefined)
            (RequestInit.body (resolvedRequestOptions this payload))).
Proof.
  unfold TanStackI18nextBackend.buildFetchOptions. simpl.
  by destruct (RequestInit.body _).
Qed.

Lemma buildFetchOptions_headers this payload :
  RequestInit.headers (buildFetchOptions this payload)
  = Some (default (builtHeaders this payload)
            (RequestInit.headers (resolvedRequestOptions this payload))).
Proof.
  unfold TanStackI18nextBackend.buildFetchOptions. simpl.
  destruct (RequestInit.headers _); simpl; [done|].
  by rewrite (left_id_L ∅ (∪)).
Qed.

(** The payload block writes the content type after the custom headers
    were copied in. *)
Lemma builtHeaders_content_type this payload :
  truthy payload = true ->
  builtHeaders this payload !! "Content-Type" = Some "application/json".
Proof.
  intros Hp. unfold TanStackI18nextBackend.builtHeaders. rewrite Hp.
  apply lookup_insert_eq.
Qed.

(** C4, amended.  Let the transport-options override be the configured
    [requestOptions], applied to the payload when it is a function, and
    the empty object when none is configured.  When it sets neither a
    method nor a body, a truthy payload gives method POST and as body the
    configured [stringify] of the payload, or [JSON.stringify] of it when
    none is configured, and a falsy (absent) payload gives method GET and
    an undefined body.  A method or a body that the override sets replaces
    the computed one. *)
Theorem buildFetchOptions_method_and_body
    (this : TanStackI18nextBackend.t) (payload : JSValue)
    (transport : RequestInit.t) :
  transport
    = match I18nextRequestOptions.requestOptions
              (TanStackI18nextBackend.options this) with
      | Some (Plain r) => r
      | Some (Fn f) => f payload
      | None => RequestInit.empty
      end ->
  (RequestInit.method transport = None -> RequestInit.body transport = None ->
   (truthy payload = true ->
      RequestInit.method (buildFetchOptions this payload) = Some "POST" ∧
      RequestInit.body (buildFetchOptions this payload)
        = Some match I18nextRequestOptions.stringify
                       (TanStackI18nextBackend.options this) with
               | Some f => JStr (f payload)
               | None => JSON_stringify payload
               end) ∧
   (truthy payload = false ->
      RequestInit.method (buildFetchOptions this payload) = Some "GET" ∧
      RequestInit.body (buildFetchOptions this payload) = Some JUndefined)) ∧
  (∀ m, RequestInit.method transport = Some m ->
        RequestInit.method (buildFetchOptions this payload) = Some m) ∧
  (∀ b, RequestInit.body transport = Some b ->
        RequestInit.body (buildFetchOptions this payload) = Some b).
Proof.
  intros Htransport.
  assert (resolvedRequestOptions this payload = transport) as Hro.
  { rewrite Htransport. unfold TanStackI18nextBackend.resolvedRequestOptions.
    by destruct (I18nextRequestOptions.requestOptions _) as [[r|f]|]. }
  rewrite buildFetchOptions_method, buildFetchOptions_body, Hro.
  unfold TanStackI18nextBackend.stringifyPayload.
  split; [|split].
  - intros -> ->. simpl. split; intros ->; done.
  - by intros m ->.
  - by intros b ->.
Qed.

(** C9, amended.  When the transport-options override has no headers of its
    own, every request with a truthy payload carries
    Content-Type: application/json, whatever the custom headers hold. *)
Theorem buildFetchOptions_post_content_type
    (this : TanStackI18nextBackend.t) (payload : JSValue) :
  truthy payload = true ->
  RequestInit.headers (resolvedRequestOptions this payload) = None ->
  RequestInit.headers (buildFetchOptions this payload)
    ≫= (.!! "Content-Type") = Some "application/json".
Proof.
  intros Hp Hh. rewrite buildFetchOptions_headers, Hh. simpl.
  by apply builtHeaders_content_type.
Qed.

End RequestBuilder.

Section RequestBuilderExamples.
Import Samples.

Lemma buildFetchOptions_method_and_body_witness :
  (RequestInit.method
     (TanStackI18nextBackend.buildFetchOptions stringifyOpaque None
        plainBackend samplePayload) = Some "POST" ∧
   RequestInit.body
     (TanStackI18nextBackend.buildFetchOptions stringifyOpaque None
        plainBackend samplePayload) = Some (JStr "{}")) ∧
  (RequestInit.method
     (TanStackI18nextBackend.buildFetchOptions stringifyOpaque None
        (backendWith optionsWithStringify) samplePayload) = Some "POST" ∧
   RequestInit.body
     (TanStackI18nextBackend.buildFetchOptions stringifyOpaque None
        (backendWith optionsWithStringify) samplePayload)
     = Some (JStr "key=value")) ∧
  (RequestInit.method
     (TanStackI18nextBackend.buildFetchOptions stringifyOpaque None
        plainBackend JUndefined) = Some "GET" ∧
   RequestInit.body
     (TanStackI18nextBackend.buildFetchOptions stringifyOpaque None
        plainBackend JUndefined) = Some JUndefined) ∧
  (RequestInit.method
     (TanStackI18nextBackend.buildFetchOptions stringifyOpaque None
        plainBackend (JStr "")) = Some "GET" ∧
   RequestInit.body
     (TanStackI18nextBackend.buildFetchOptions stringifyOpaque None
        plainBackend (JStr "")) = Some JUndefined) ∧
  RequestInit.method
    (TanStackI18nextBackend.buildFetchOptions stringifyOpaque None
       (backendWith optionsForcingGet) samplePayload) = Some "GET".
Proof.
  refine (conj _ (conj _ (conj _ (conj _ _)))).
  - apply (proj1 (proj1 (buildFetchOptions_method_and_body
                           stringifyOpaque None plainBackend samplePayload
                           _ eq_refl) eq_refl eq_refl) eq_refl).
  - apply (proj1 (proj1 (buildFetchOptions_method_and_body
                           stringifyOpaque None
                           (backendWith optionsWithStringify) samplePayload
                           _ eq_refl) eq_refl eq_refl) eq_refl).
  - apply (proj2 (proj1 (buildFetchOptions_method_and_body
                           stringifyOpaque None plainBackend JUndefined
                           _ eq_refl) eq_refl eq_refl) eq_refl).
  - apply (proj2 (proj1 (buildFetchOptions_method_and_body
                           stringifyOpaque None plainBackend (JStr "")
                           _ eq_refl) eq_refl eq_refl) eq_refl).
  - apply (proj1 (proj2 (buildFetchOptions_method_and_body
                           stringifyOpaque None
                           (backendWith optionsForcingGet) samplePayload
                           _ eq_refl)) "GET" eq_refl).
Defined.

(** C4, as stated, fails: with the README's method-forcing transport
    options a present payload is sent with GET. *)
Lemma buildFetchOptions_method_overridden :
  truthy samplePayload = true ∧
  RequestInit.method
    (TanStackI18nextBackend.buildFetchOptions stringifyOpaque None
       (backendWith optionsForcingGet) samplePayload) ≠ Some "POST".
Proof. split; [reflexivity | discriminate]. Qed.

Lemma buildFetchOptions_post_content_type_witness :
  RequestInit.headers
    (TanStackI18nextBackend.buildFetchOptions stringifyOpaque None
       (backendWith optionsWithContentType) samplePayload)
    ≫= (.!! "Content-Type") = Some "application/json".
Proof.
  apply (buildFetchOptions_post_content_type stringifyOpaque None
           (backendWith optionsWithContentType) samplePayload); reflexivity.
Defined.

(** C9, as stated, fails: custom headers that supply their own
    Content-Type do not win over the payload's. *)
Lemma custom_content_type_does_not_win :
  TanStackI18nextBackend.resolvedCustomHeaders
    (backendWith optionsWithContentType)
    ≫= (.!! "Content-Type") = Some "text/plain" ∧
  truthy samplePayload = true ∧
  RequestInit.headers
    (TanStackI18nextBackend.buildFetchOptions stringifyOpaque None
       (backendWith optionsWithContentType) samplePayload)
    ≫= (.!! "Content-Type") ≠ Some "text/plain".
Proof.
  split; [reflexivity | split; [reflexivity |]].
  rewrite buildFetchOptions_headers. simpl.
  rewrite builtHeaders_content_type by reflexivity. discriminate.
Qed.

End RequestBuilderExamples.

(** ** The constructor's defaults *)

Section Defaults.
Import Samples I18nextErrorHandler.

(** C8.  When the backend is constructed with no cache options supplied,
    its [tanstackQuery] configuration has the documented defaults: enabled
    false, staleTime 5 minutes (300000 ms), cacheTime 10 minutes
    (600000 ms), retry 3, refetchOnWindowFocus false and refetchOnReconnect
    true. *)
Theorem backend_default_tanstackQuery (options : I18nextRequestOptions.t) :
  I18nextRequestOptions.tanstackQuery options = None ->
  ∃ tq, I18nextRequestOptions.tanstackQuery (Backend.constructedOptions options)
        = Some tq ∧
        TanStackQueryOptions.enabled tq = Some false ∧
        TanStackQueryOptions.staleTime tq = Some 300000 ∧
        TanStackQueryOptions.cacheTime tq = Some 600000 ∧
        TanStackQueryOptions.retry tq = Some (RetryCount 3) ∧
        TanStackQueryOptions.refetchOnWindowFocus tq = Some false ∧
        TanStackQueryOptions.refetchOnReconnect tq = Some true.
Proof.
  intros Hnone. eexists. split.
  - unfold Backend.constructedOptions. simpl. rewrite Hnone. reflexivity.
  - repeat split.
Qed.

Lemma backend_default_tanstackQuery_witness :
  ∃ tq, I18nextRequestOptions.tanstackQuery
          (Backend.constructedOptions I18nextRequestOptions.empty) = Some tq ∧
        TanStackQueryOptions.enabled tq = Some false ∧
        TanStackQueryOptions.staleTime tq = Some 300000 ∧
        TanStackQueryOptions.cacheTime tq = Some 600000 ∧
        TanStackQueryOptions.retry tq = Some (RetryCount 3) ∧
        TanStackQueryOptions.refetchOnWindowFocus tq = Some false ∧
        TanStackQueryOptions.refetchOnReconnect tq = Some true.
Proof.
  apply (backend_default_tanstackQuery I18nextRequestOptions.empty).
  reflexivity.
Defined.

(** The tests' other configuration: supplied fields are kept. *)
Example backend_keeps_supplied_fields :
  I18nextRequestOptions.tanstackQuery
    (Backend.constructedOptions
       (cacheOptions None (Some (retryBlock (RetryCount 5)))))
    ≫= TanStackQueryOptions.retry = Some (RetryCount 5).
Proof. reflexivity. Qed.

End Defaults.

(** ** The cache-key scheme *)

Section CacheKeys.
Import Samples.

(** C5. Both key factories are functions of their arguments (equal
    arguments give equal keys), and they are injective: load keys agree
    only on equal URLs (and payloads, where the factory takes one), save
    keys only on equal URLs and equal payloads, so different payloads give
    different save keys, and a load key never equals a save key. *)
Theorem queryKeys_deterministic_injective :
  (∀ u, QueryKeysTs.queryKeys.load u = QueryKeysTs.queryKeys.load u) ∧
  (∀ u u', QueryKeysTs.queryKeys.load u = QueryKeysTs.queryKeys.load u'
           <-> u = u') ∧
  (∀ u p p', p ≠ p' ->
     QueryKeysTs.queryKeys.create u p ≠ QueryKeysTs.queryKeys.create u p') ∧
  (∀ u u' p p',
     QueryKeysTs.queryKeys.create u p = QueryKeysTs.queryKeys.create u' p'
     <-> u = u' ∧ p = p') ∧
  (∀ u u' p, QueryKeysTs.queryKeys.load u ≠ QueryKeysTs.queryKeys.create u' p) ∧
  (∀ u p, Types.queryKeys.load u p = Types.queryKeys.load u p) ∧
  (∀ u u' p p', Types.queryKeys.load u p = Types.queryKeys.load u' p'
                <-> u = u' ∧ p = p') ∧
  (∀ u p p', p ≠ p' ->
     Types.queryKeys.create u p ≠ Types.queryKeys.create u p') ∧
  (∀ u u' p p', Types.queryKeys.create u p = Types.queryKeys.create u' p'
                <-> u = u' ∧ p = p') ∧
  (∀ u u' p p', Types.queryKeys.load u p ≠ Types.queryKeys.create u' p').
Proof.
  unfold QueryKeysTs.queryKeys.load, QueryKeysTs.queryKeys.create,
    Types.queryKeys.load, Types.queryKeys.create, Types.queryKeys.loads,
    Types.queryKeys.creates, Types.queryKeys.all.
  simpl. repeat split; try congruence.
  all: try (intros [-> ->]; done).
Qed.

Lemma queryKeys_deterministic_injective_witness :
  QueryKeysTs.queryKeys.create "/locales/add/en/test" (JNum 1)
    ≠ QueryKeysTs.queryKeys.create "/locales/add/en/test" (JNum 2) ∧
  Types.queryKeys.create "/locales/add/en/test" (JNum 1)
    ≠ Types.queryKeys.create "/locales/add/en/test" (JNum 2).
Proof.
  destruct queryKeys_deterministic_injective
    as (_ & _ & Hts & _ & _ & _ & _ & Htypes & _).
  split; [apply Hts | apply Htypes]; discriminate.
Defined.


End CacheKeys.

(** ** The callback contract *)

Section Callback.
Import Samples I18nextError I18nextErrorHandler.

Lemma classifyParseOrDefault_fields i err u :
  status (classifyParseOrDefault i err u) = status i ∧
  retry (classifyParseOrDefault i err u) = Some false ∧
  is_Some (message (classifyParseOrDefault i err u)).
Proof.
  unfold classifyParseOrDefault.
  destruct (match err with Some _ => _ | None => false end); simpl; eauto.
Qed.

Lemma classifyByMessage_fields i err u :
  status (classifyByMessage i err u) = status i ∧
  (retry (classifyByMessage i err u) = Some true ∨
   retry (classifyByMessage i err u) = Some false) ∧
  is_Some (message (classifyByMessage i err u)).
Proof.
  destruct (classifyParseOrDefault_fields i err u) as (Hs & Hr & Hm).
  unfold classifyByMessage.
  destruct (err ≫= message) as [m|]; [|by auto].
  destruct (_ && _); [|by auto]. simpl. by auto.
Qed.

(** What every normalized error looks like: it has a message and a boolean
    retry flag, and the flag agrees with the status class. *)
Lemma transformError_normalized err u :
  is_Some (message (transformError err u)) ∧
  (retry (transformError err u) = Some true ∨
   retry (transformError err u) = Some false) ∧
  (optIn in5xx (status (transformError err u)) = true ->
   retry (transformError err u) = Some true) ∧
  (optIn in4xx (status (transformError err u)) = true ->
   retry (transformError err u) = Some false).
Proof.
  assert (∀ i, optIn in5xx (status i) = false -> optIn in4xx (status i) = false ->
            let e := classifyByMessage i err u in
            is_Some (message e) ∧
            (retry e = Some true ∨ retry e = Some false) ∧
            (optIn in5xx (status e) = true -> retry e = Some true) ∧
            (optIn in4xx (status e) = true -> retry e = Some false)) as Hmsg.
  { intros i H5 H4. destruct (classifyByMessage_fields i err u) as (Hs & Hr & Hm).
    simpl. rewrite Hs, H5, H4. by auto. }
  unfold transformError. destruct err as [e|]; [|by apply Hmsg].
  destruct (_ || _); [|by apply Hmsg]. simpl.
  destruct (optIn in5xx (carriedStatus e)) eqn:H5.
  - simpl. rewrite H5. repeat split; auto.
    destruct (carriedStatus e) as [n|]; [|done]. simpl in *.
    by rewrite (in5xx_not_in4xx n H5).
  - destruct (optIn in4xx (carriedStatus e)) eqn:H4.
    + simpl. rewrite H5, H4. repeat split; auto. done.
    + by apply Hmsg.
Qed.

(** [processForCallback] in one line: the message, and a retry signal that
    is the retry flag or a 5xx status. *)
Lemma processForCallback_spec e :
  processForCallback (Some e)
  = {| Processed.error := messageValue e;
       Processed.retry :=
         bool_decide (retry e = Some true) || optIn in5xx (status e) |}.
Proof.
  unfold processForCallback. case_bool_decide; [done|]. simpl.
  destruct (status e) as [n|]; simpl; [|done].
  destruct (in4xx n) eqn:H4.
  - rewrite (in4xx_not_in5xx n H4), andb_true_r, andb_false_r.
    by destruct (negb _).
  - rewrite andb_false_r. destruct (in5xx n) eqn:H5; [|by rewrite andb_false_r].
    rewrite andb_true_r. apply in5xx_spec in H5.
    assert (Z.eqb n 0 = false) as -> by (apply Z.eqb_neq; lia). done.
Qed.

Section WithHost.

Variable JSON_stringify : JSValue -> JSValue.
Variable JSON_parse : string -> option JSValue.
Variable encodeURIComponent : string -> string.
Variable nodeProcess : option NodeProcess.t.
Variable fetch : string -> RequestInit.t -> FetchOutcome.

Local Abbreviation request :=
  (TanStackI18nextBackend.request
     JSON_stringify JSON_parse encodeURIComponent nodeProcess fetch).
Local Abbreviation requestWithCallback :=
  (TanStackI18nextBackend.requestWithCallback
     JSON_stringify JSON_parse encodeURIComponent nodeProcess fetch).

(** C7, on the code.  In [request] the query key is computed from the
    identifier [queryKeys], which has no binding at run time, before the
    [try] is entered.  So for every backend, options, URL and payload, and
    whatever the cache client and the transport would answer, [request]
    rejects with the raw error named "ReferenceError" and
    [requestWithCallback] invokes the callback with the error string
    "queryKeys is not defined" and null: never with (null, response), and
    never with the sentinel.  The claim asks for (null, {status, data}) on
    success and for the normalized message with sentinel or null on
    failure. *)
Theorem requestWithCallback_always_reference_error
    (this : TanStackI18nextBackend.t) (opts : I18nextRequestOptions.t)
    (u : string) (payload : JSValue) :
  request this opts u payload
  = Rejected (Some {| name := Some "ReferenceError";
                      message := Some "queryKeys is not defined";
                      status := None; retry := None; url := None;
                      response := None |}) ∧
  requestWithCallback this opts u payload
  = {| callbackError := JStr "queryKeys is not defined";
       callbackResponse := None |}.
Proof. split; reflexivity. Qed.

End WithHost.

(** The claim's own scenario: a server that serves the translation file,
    a cache client that runs the query function, and a load without
    payload. *)
Example requestWithCallback_on_served_file :
  TanStackI18nextBackend.createQueryFn
    stringifyOpaque parseOnlyEmptyObject id None (answering "{}")
    plainBackend "/locales/en/test.json" JUndefined tt
  = Resolved {| I18nextResponse.status := 200;
                I18nextResponse.data := JObj ∅ |} ∧
  TanStackI18nextBackend.requestWithCallback
    stringifyOpaque parseOnlyEmptyObject id None (answering "{}")
    plainBackend I18nextRequestOptions.empty "/locales/en/test.json" JUndefined
  = {| callbackError := JStr "queryKeys is not defined";
       callbackResponse := None |}.
Proof. split; reflexivity. Qed.

End Callback.

(** ** The fallback to the direct transport *)

Section Fallback.
Import Samples.

Lemma isTanstackQueryEnabled_spec options :
  Types.isTanstackQueryEnabled options = true <->
  is_Some (I18nextRequestOptions.queryClient options) ∧
  I18nextRequestOptions.tanstackQuery options
    ≫= TanStackQueryOptions.enabled = Some true.
Proof.
  unfold Types.isTanstackQueryEnabled.
  rewrite andb_true_iff, !bool_decide_eq_true. tauto.
Qed.

(** The other guard of [types.ts] is weaker: it accepts a client without
    an enabled flag. *)
Lemma isQueryClientAvailable_spec options :
  Types.isQueryClientAvailable options = true <->
  is_Some (I18nextRequestOptions.queryClient options) ∧
  I18nextRequestOptions.tanstackQuery options
    ≫= TanStackQueryOptions.enabled ≠ Some false.
Proof.
  unfold Types.isQueryClientAvailable.
  rewrite andb_true_iff, negb_true_iff, bool_decide_eq_true,
    bool_decide_eq_false. tauto.
Qed.

Section WithLoader.

Variable JSON_stringify : JSValue -> JSValue.
Variable JSON_parse : string -> option JSValue.
Variable encodeURIComponent : string -> string.
Variable nodeProcess : option NodeProcess.t.
Variable fetch : string -> RequestInit.t -> FetchOutcome.
Variable directRequest :
  I18nextRequestOptions.t -> string -> JSValue -> CallbackCall.

Local Abbreviation load :=
  (ResourceLoader.load JSON_stringify JSON_parse encodeURIComponent
     nodeProcess fetch directRequest).

Lemma load_direct options u payload :
  ResourceLoader.path options = ResourceLoader.DirectTransport ->
  load options u payload
  = directRequest (ResourceLoader.transportOptions options) u payload.
Proof. unfold ResourceLoader.load. by intros ->. Qed.

Lemma path_direct options :
  I18nextRequestOptions.queryClient options = None ∨
  I18nextRequestOptions.tanstackQuery options
    ≫= TanStackQueryOptions.enabled ≠ Some true ->
  ResourceLoader.path options = ResourceLoader.DirectTransport.
Proof.
  intros H. unfold ResourceLoader.path.
  destruct (Types.isTanstackQueryEnabled options) eqn:E; [|done].
  apply isTanstackQueryEnabled_spec in E as [[c Hc] He].
  destruct H; congruence.
Qed.

(** C6. The cache-backed path is taken exactly when the options hold a
    cache client and an enabled flag that is true; when either is missing
    the loader makes the direct transport call; and options with the flag
    set but no client give the same callback outcome as options with cache
    integration disabled and the same transport settings. *)
Theorem cache_path_needs_client_and_flag (options : I18nextRequestOptions.t) :
  (ResourceLoader.path options = ResourceLoader.CacheBacked <->
   is_Some (I18nextRequestOptions.queryClient options) ∧
   I18nextRequestOptions.tanstackQuery options
     ≫= TanStackQueryOptions.enabled = Some true) ∧
  (I18nextRequestOptions.queryClient options = None ∨
   I18nextRequestOptions.tanstackQuery options
     ≫= TanStackQueryOptions.enabled ≠ Some true ->
   ResourceLoader.path options = ResourceLoader.DirectTransport ∧
   ∀ u payload,
     load options u payload
     = directRequest (ResourceLoader.transportOptions options) u payload) ∧
  (∀ disabled u payload,
     I18nextRequestOptions.queryClient options = None ->
     I18nextRequestOptions.tanstackQuery options
       ≫= TanStackQueryOptions.enabled = Some true ->
     I18nextRequestOptions.tanstackQuery disabled
       ≫= TanStackQueryOptions.enabled ≠ Some true ->
     ResourceLoader.transportOptions disabled
       = ResourceLoader.transportOptions options ->
     load options u payload = load disabled u payload).
Proof.
  split; [|split].
  - unfold ResourceLoader.path. rewrite <- isTanstackQueryEnabled_spec.
    by destruct (Types.isTanstackQueryEnabled options).
  - intros H. pose proof (path_direct options H) as Hp.
    split; [done|]. intros u payload. by apply load_direct.
  - intros disabled u payload Hclient Hflag Hoff Hsame.
    rewrite !load_direct, Hsame; [done | |]; apply path_direct; auto.
Qed.

End WithLoader.

Lemma cache_path_needs_client_and_flag_witness :
  ResourceLoader.load stringifyOpaque parseOnlyEmptyObject id None
    (answering "{}") directServing
    (cacheOptions None (Some (cacheBlock (Some true))))
    "http://localhost:5001/locales/en/test" JUndefined
  = ResourceLoader.load stringifyOpaque parseOnlyEmptyObject id None
      (answering "{}") directServing
      (cacheOptions (Some passThroughClient) (Some (cacheBlock (Some false))))
      "http://localhost:5001/locales/en/test" JUndefined.
Proof.
  apply (proj2 (proj2 (cache_path_needs_client_and_flag
                         stringifyOpaque parseOnlyEmptyObject id None
                         (answering "{}") directServing
                         (cacheOptions None (Some (cacheBlock (Some true)))))));
    [reflexivity | reflexivity | discriminate | reflexivity].
Defined.

Example client_without_flag_passes_weaker_guard :
  Types.isQueryClientAvailable (cacheOptions (Some passThroughClient) None)
    = true ∧
  Types.isTanstackQueryEnabled (cacheOptions (Some passThroughClient) None)
    = false.
Proof. split; reflexivity. Qed.

End Fallback.

(** * Further properties of the embedded code *)

(** ** More on strings *)

Section MoreStringFacts.

Lemma append_assoc_str (a b c : string) : (a +:+ b) +:+ c = a +:+ (b +:+ c).
Proof.
  induction a as [|x a IH]; [done|].
  change (String x ((a +:+ b) +:+ c) = String x (a +:+ (b +:+ c))).
  by f_equal.
Qed.

Lemma append_empty_inv (a b : string) : a +:+ b = "" -> a = "" ∧ b = "".
Proof. by destruct a. Qed.

Lemma startsWith_append needle hay rest :
  startsWith needle hay = true -> startsWith needle (hay +:+ rest) = true.
Proof.
  revert hay. induction needle as [|a needle IH]; intros [|b hay]; simpl;
    try done.
  intros [-> Hrest]%andb_prop. simpl. by apply IH.
Qed.

Lemma startsWith_refl_append needle rest :
  startsWith needle (needle +:+ rest) = true.
Proof.
  induction needle as [|a needle IH]; simpl; [done|].
  by rewrite Ascii.eqb_refl.
Qed.

Lemma includes_append_l needle hay rest :
  includes needle hay = true -> includes needle (hay +:+ rest) = true.
Proof.
  induction hay as [|b hay IH].
  - simpl. rewrite orb_false_r. intros H.
    destruct needle; [by destruct rest | done].
  - intros [H|H]%orb_prop.
    + change (String b hay +:+ rest) with (String b (hay +:+ rest)).
      apply orb_true_iff. left.
      by apply (startsWith_append needle (String b hay) rest).
    + change (String b hay +:+ rest) with (String b (hay +:+ rest)).
      apply orb_true_iff. right. by apply IH.
Qed.

Lemma includes_append_r needle front hay :
  includes needle hay = true -> includes needle (front +:+ hay) = true.
Proof.
  intros H. induction front as [|b front IH]; [done|].
  change (String b front +:+ hay) with (String b (front +:+ hay)).
  apply orb_true_iff. by right.
Qed.

Lemma includes_self_append needle rest :
  includes needle (needle +:+ rest) = true.
Proof.
  destruct needle as [|a needle]; [by destruct rest|].
  change (includes (String a needle) (String a (needle +:+ rest)) = true).
  apply orb_true_iff. left.
  exact (startsWith_refl_append (String a needle) rest).
Qed.

Lemma includes_refl s : includes s s = true.
Proof.
  destruct s as [|a s]; [done|]. apply orb_true_iff. left.
  simpl. rewrite Ascii.eqb_refl. simpl.
  induction s as [|b s IH]; simpl; [done | by rewrite Ascii.eqb_refl].
Qed.

End MoreStringFacts.

(** ** The query string *)

Section QueryString.
Import Samples.

Variable encodeURIComponent : string -> string.

Local Abbreviation addQueryString :=
  (TanStackI18nextBackend.addQueryString encodeURIComponent).
Local Abbreviation joinAmp := TanStackI18nextBackend.joinAmp.

(** One [key=value] pair as the code encodes it. *)
Local Abbreviation encodePair :=
  (fun kv : string * string =>
     encodeURIComponent (fst kv) +:+ "=" +:+ encodeURIComponent (snd kv)).

Lemma joinAmp_cons part parts :
  parts ≠ [] -> joinAmp (part :: parts) = part +:+ "&" +:+ joinAmp parts.
Proof. by destruct parts. Qed.

Lemma joinAmp_app front back :
  front ≠ [] -> back ≠ [] ->
  joinAmp (front ++ back)%list = joinAmp front +:+ "&" +:+ joinAmp back.
Proof.
  intros Hf Hb. induction front as [|p front IH]; [done|].
  destruct front as [|q front].
  - simpl app. by rewrite joinAmp_cons.
  - change ((p :: q :: front) ++ back)%list
      with (p :: ((q :: front) ++ back))%list.
    rewrite joinAmp_cons by done. rewrite IH by done.
    rewrite (joinAmp_cons p (q :: front)) by done.
    by rewrite !append_assoc_str.
Qed.

Lemma queryString_nonempty entries :
  entries ≠ [] -> String.eqb (joinAmp (map encodePair entries)) "" = false.
Proof.
  intros Hne. apply String.eqb_neq. intros Hempty.
  destruct entries as [|kv entries]; [done|]. simpl map in Hempty.
  assert (encodePair kv ≠ "") as Hpair.
  { intros [_ H]%append_empty_inv. done. }
  destruct (map encodePair entries) as [|q parts]; simpl in Hempty.
  - done.
  - by apply append_empty_inv in Hempty as [? _].
Qed.

Lemma addQueryString_form (u : string) (entries : list (string * string)) :
  entries ≠ [] ->
  addQueryString u (Some entries)
  = u +:+ (if includes "?" u then "&" else "?") +:+
    joinAmp (map encodePair entries) ∧
  includes "?" (addQueryString u (Some entries)) = true.
Proof.
  intros Hne.
  assert (addQueryString u (Some entries)
          = u +:+ (if includes "?" u then "&" else "?") +:+
            joinAmp (map encodePair entries)) as Heq.
  { unfold TanStackI18nextBackend.addQueryString.
    by rewrite (queryString_nonempty entries Hne). }
  split; [done|]. rewrite Heq.
  destruct (includes "?" u) eqn:Hq.
  - by apply includes_append_l.
  - apply includes_append_r. apply (includes_self_append "?").
Qed.

(** X1. With at least one configured parameter the final URL is the
    request URL, one separator and the encoded pairs joined by "&"; the
    separator is "&" when the request URL already contains a "?", else
    "?", so the final URL always contains a "?". *)
Theorem addQueryString_appends (u : string) (entries : list (string * string)) :
  entries ≠ [] ->
  addQueryString u (Some entries)
  = u +:+ (if includes "?" u then "&" else "?") +:+
    joinAmp (map encodePair entries) ∧
  includes "?" (addQueryString u (Some entries)) = true.
Proof. apply addQueryString_form. Qed.

(** X2. Applying [addQueryString] to its own result appends: the outcome
    is the request URL followed, when there is any pair at all, by one
    separator ("&" if the request URL contains a "?", else "?") and the
    encoded pairs of the first call and then of the second, all joined by
    "&"; with no pair at all it is the request URL. *)
Theorem addQueryString_compose (u : string)
    (first second : list (string * string)) :
  addQueryString (addQueryString u (Some first)) (Some second)
  = match (first ++ second)%list with
    | [] => u
    | _ :: _ =>
        u +:+ (if includes "?" u then "&" else "?") +:+
        joinAmp (map encodePair first ++ map encodePair second)%list
    end.
Proof.
  assert (∀ v, addQueryString v (Some []) = v) as Hnone by done.
  destruct first as [|kv first].
  { rewrite Hnone. destruct second as [|kv' second]; [done|].
    destruct (addQueryString_form u (kv' :: second)) as [Heq _]; [done|].
    exact Heq. }
  destruct (addQueryString_form u (kv :: first)) as [Hfirst Hmark]; [done|].
  destruct second as [|kv' second].
  { rewrite Hnone, Hfirst. simpl map. by rewrite !app_nil_r. }
  destruct (addQueryString_form
              (addQueryString u (Some (kv :: first))) (kv' :: second))
    as [Hsecond _]; [done|].
  rewrite Hsecond, Hmark, Hfirst.
  rewrite joinAmp_app by done.
  change ((kv :: first) ++ kv' :: second)%list
    with (kv :: (first ++ kv' :: second))%list. cbv iota.
  by rewrite !append_assoc_str.
Qed.

End QueryString.

Lemma addQueryString_appends_witness :
  TanStackI18nextBackend.addQueryString id "/locales/en/test.json"
    (Some [("v", "1.2"); ("lang", "en")])
  = "/locales/en/test.json" +:+
    (if includes "?" "/locales/en/test.json" then "&" else "?") +:+
    TanStackI18nextBackend.joinAmp
      (map (fun kv : string * string => id (fst kv) +:+ "=" +:+ id (snd kv))
         [("v", "1.2"); ("lang", "en")]) ∧
  includes "?"
    (TanStackI18nextBackend.addQueryString id "/locales/en/test.json"
       (Some [("v", "1.2"); ("lang", "en")])) = true.
Proof.
  apply (addQueryString_appends id "/locales/en/test.json"
           [("v", "1.2"); ("lang", "en")]).
  discriminate.
Defined.

Example addQueryString_sample :
  TanStackI18nextBackend.addQueryString id "/locales?x=1"
    (Some [("v", "1.2"); ("lang", "en")]) = "/locales?x=1&v=1.2&lang=en".
Proof. reflexivity. Qed.

(** ** Normalized errors, and normalizing twice *)

Section Renormalize.
Import Samples I18nextError I18nextErrorHandler.

Lemma failed_message_is_network rest :
  someIncludes networkErrorTerms (toLowerCase ("failed" +:+ rest)) = true.
Proof. reflexivity. Qed.

Lemma literal_append_nonempty (a : Ascii.ascii) (s rest : string) :
  String a s +:+ rest ≠ "".
Proof. discriminate. Qed.

(** The record the status branch returns. *)
Lemma transformError_status_form e u n :
  carriedStatus e = Some n -> 400 <= n < 600 ->
  transformError (Some e) u
  = {| name := Some "Error"; message := Some (statusMessage u (Some n));
       status := Some n; retry := Some (in5xx n); url := Some u;
       response := None |}.
Proof.
  intros Hs Hn. unfold transformError.
  rewrite (carriedStatus_enters e n Hs) by lia. rewrite Hs. simpl.
  destruct (in5xx n) eqn:H5; [done|].
  assert (in4xx n = true) as ->; [|done].
  apply in4xx_spec. apply not_true_iff_false in H5.
  rewrite in5xx_spec in H5. lia.
Qed.

(** A normalized error with a 4xx or 5xx status carries the status
    message. *)
Lemma transformError_status_message err u :
  optIn in4xx (status (transformError err u)) = true ∨
  optIn in5xx (status (transformError err u)) = true ->
  message (transformError err u)
  = Some (statusMessage u (status (transformError err u))).
Proof.
  assert (∀ i, optIn in5xx (status i) = false -> optIn in4xx (status i) = false ->
            optIn in4xx (status (classifyByMessage i err u)) = true ∨
            optIn in5xx (status (classifyByMessage i err u)) = true -> False)
    as Hmsg.
  { intros i H5 H4. destruct (classifyByMessage_fields i err u) as (-> & _ & _).
    rewrite H5, H4. intros [|]; done. }
  unfold transformError. destruct err as [e|]; [|by intros ?%Hmsg].
  destruct (_ || _); [|by intros ?%Hmsg]. simpl.
  destruct (optIn in5xx (carriedStatus e)) eqn:H5; [done|].
  destruct (optIn in4xx (carriedStatus e)) eqn:H4; [done|].
  by intros ?%Hmsg.
Qed.

(** What the network test makes of an error whose message holds a term and
    whose status is not a 4xx or 5xx one. *)
Lemma transformError_network_form e u m :
  message e = Some m -> m ≠ "" ->
  someIncludes networkErrorTerms (toLowerCase m) = true ->
  optIn in4xx (carriedStatus e) = false ->
  optIn in5xx (carriedStatus e) = false ->
  retry (transformError (Some e) u) = Some true ∧
  message (transformError (Some e) u)
  = Some ("failed loading " +:+ u +:+ ": " +:+ m).
Proof.
  intros Hm Hne Hnet H4 H5.
  assert (∀ i, classifyByMessage i (Some e) u
               = finish i ("failed loading " +:+ u +:+ ": " +:+ m) true) as Hc.
  { intros i. unfold classifyByMessage.
    change (Some e ≫= message) with (message e). rewrite Hm, Hnet.
    assert (truthyStr (Some m) = true) as ->; [|done].
    apply negb_true_iff, String.eqb_neq. done. }
  unfold transformError. rewrite H4, H5.
  destruct (_ || _); rewrite Hc; done.
Qed.

Lemma transformError_shape (err : option I18nextError.t) (u : string) :
  name (transformError err u) = Some "Error" ∧
  url (transformError err u) = Some u ∧
  response (transformError err u) = None ∧
  (∃ m, message (transformError err u) = Some m ∧ m ≠ "") ∧
  (retry (transformError err u) = Some true ∨
   retry (transformError err u) = Some false).
Proof.
  assert (∀ i, name i = Some "Error" -> url i = Some u -> response i = None ->
            let e := classifyByMessage i err u in
            name e = Some "Error" ∧ url e = Some u ∧ response e = None ∧
            (∃ m, message e = Some m ∧ m ≠ "") ∧
            (retry e = Some true ∨ retry e = Some false)) as Hmsg.
  { intros i Hn Hu Hr. unfold classifyByMessage, classifyParseOrDefault.
    destruct (err ≫= message) as [m|]; simpl.
    - destruct (_ && _); simpl; [by eauto 10|].
      destruct (match err with Some _ => _ | None => false end); simpl;
        [by eauto 10|].
      destruct m; simpl; eauto 10.
    - destruct (match err with Some _ => _ | None => false end); simpl;
        eauto 10. }
  unfold transformError. destruct err as [e|]; [|by apply Hmsg].
  destruct (_ || _); [|by apply Hmsg]. simpl.
  destruct (optIn in5xx _); [simpl; by eauto 10|].
  destruct (optIn in4xx _); [simpl; by eauto 10|].
  by apply Hmsg.
Qed.

(** X3. Every normalized error is named "Error", records the requested URL,
    has no response property, a non-empty message and a boolean retry
    flag. *)
Theorem transformError_output_shape (err : option I18nextError.t) (u : string) :
  name (transformError err u) = Some "Error" ∧
  url (transformError err u) = Some u ∧
  response (transformError err u) = None ∧
  (∃ m, message (transformError err u) = Some m ∧ m ≠ "") ∧
  (retry (transformError err u) = Some true ∨
   retry (transformError err u) = Some false).
Proof. apply transformError_shape. Qed.

(** The error argument [processForCallback] passes on for a normalized
    error. *)
Lemma processForCallback_error_message err u :
  ∃ m, Processed.error (processForCallback (Some (transformError err u)))
       = JStr m ∧ m ≠ "".
Proof.
  destruct (transformError_shape err u) as (_ & _ & _ & (m & Hm & Hne) & _).
  exists m. rewrite processForCallback_spec. simpl.
  unfold messageValue. by rewrite Hm.
Qed.

(** X4. Normalizing a status-classified error again changes nothing: when
    the carried status lies in [400,600), [transformError] applied to its
    own result returns that result. *)
Theorem transformError_status_fixed_point
    (e : I18nextError.t) (u : string) (n : Z) :
  carriedStatus e = Some n -> 400 <= n < 600 ->
  transformError (Some (transformError (Some e) u)) u
  = transformError (Some e) u.
Proof.
  intros Hs Hn. rewrite (transformError_status_form e u n Hs Hn).
  apply transformError_status_form; [|done].
  unfold carriedStatus, orNum. done.
Qed.

(** X5. Normalizing again never withdraws a retry: if a normalized error
    has retry = true, so has the result of normalizing it once more. *)
Theorem transformError_retry_survives
    (err : option I18nextError.t) (u : string) :
  retry (transformError err u) = Some true ->
  retry (transformError (Some (transformError err u)) u) = Some true.
Proof.
  intros Hretry.
  destruct (transformError_normalized err u) as (_ & _ & _ & H4).
  destruct (transformError_shape err u) as (_ & _ & Hresp & _ & _).
  assert (∃ rest, message (transformError err u)
                  = Some ("failed" +:+ rest)) as [rest Hm].
  { revert Hretry. unfold transformError.
    assert (∀ i, retry (classifyByMessage i err u) = Some true ->
              ∃ rest, message (classifyByMessage i err u)
                      = Some ("failed" +:+ rest)) as Hmsg.
    { intros i. unfold classifyByMessage, classifyParseOrDefault.
      destruct (err ≫= message) as [m|].
      - destruct (_ && _); [by eexists|].
        by destruct (match err with Some _ => _ | None => false end).
      - by destruct (match err with Some _ => _ | None => false end). }
    destruct err as [e|]; [|by apply Hmsg].
    destruct (_ || _); [|by apply Hmsg]. simpl.
    destruct (optIn in5xx (carriedStatus e)); [by eexists|].
    destruct (optIn in4xx (carriedStatus e)); [by intros [=]|].
    by apply Hmsg. }
  assert (carriedStatus (transformError err u) = status (transformError err u))
    as Hcarried by (unfold carriedStatus, orNum; by rewrite Hresp).
  assert (∀ n, status (transformError err u) = n ->
            optIn in5xx n = false ->
            retry (transformError (Some (transformError err u)) u) = Some true)
    as Hnet.
  { intros n Hst H5.
    apply (transformError_network_form _ u ("failed" +:+ rest)).
    - done.
    - apply literal_append_nonempty.
    - apply failed_message_is_network.
    - rewrite Hcarried. apply not_true_iff_false. intros H.
      specialize (H4 H). congruence.
    - by rewrite Hcarried, Hst. }
  destruct (status (transformError err u)) as [n|] eqn:Hst;
    [|by apply (Hnet None)].
  destruct (in5xx n) eqn:H5; [|by apply (Hnet (Some n))].
  rewrite (transformError_status_form (transformError err u) u n).
  - simpl. by rewrite H5.
  - by rewrite Hcarried.
  - apply in5xx_spec in H5. lia.
Qed.

(** X6. A parse verdict does not survive a second normalization: a
    normalized error with the parse-failure message and retry = false is
    normalized again, as the [catch] of [request] is written to do with
    what the cache client rejects with, into retry = true with a "failed
    loading" message, because the parse-failure message itself starts with
    "failed". *)
Theorem transformError_parse_verdict_flips
    (err : option I18nextError.t) (u : string) :
  message (transformError err u)
    = Some ("failed parsing " +:+ u +:+ " to json") ->
  retry (transformError err u) = Some false ->
  retry (transformError (Some (transformError err u)) u) = Some true ∧
  message (transformError (Some (transformError err u)) u)
    = Some ("failed loading " +:+ u +:+ ": " +:+
            "failed parsing " +:+ u +:+ " to json").
Proof.
  intros Hm Hretry.
  destruct (transformError_normalized err u) as (_ & _ & H5 & _).
  destruct (transformError_shape err u) as (_ & _ & Hresp & _ & _).
  assert (carriedStatus (transformError err u) = status (transformError err u))
    as Hcarried by (unfold carriedStatus, orNum; by rewrite Hresp).
  apply transformError_network_form.
  - done.
  - apply literal_append_nonempty.
  - apply (failed_message_is_network (" parsing " +:+ u +:+ " to json")).
  - rewrite Hcarried. apply not_true_iff_false. intros H.
    rewrite (transformError_status_message err u) in Hm by auto.
    discriminate Hm.
  - rewrite Hcarried. apply not_true_iff_false. intros H.
    specialize (H5 H). congruence.
Qed.

(** X7. On normalized errors the callback's retry signal and the cache
    client's retry predicate agree: [processForCallback] signals a retry
    exactly when [shouldRetry] holds, and the error it passes on is the
    non-empty message. *)
Theorem processForCallback_agrees_with_shouldRetry
    (err : option I18nextError.t) (u : string) :
  Processed.retry (processForCallback (Some (transformError err u)))
    = shouldRetry (transformError err u) ∧
  ∃ m, Processed.error (processForCallback (Some (transformError err u)))
       = JStr m ∧ m ≠ "".
Proof.
  destruct (transformError_normalized err u) as (_ & Hflag & H5 & _).
  split; [|by apply processForCallback_error_message].
  rewrite processForCallback_spec. simpl. unfold shouldRetry.
  destruct (optIn in5xx _); [|by rewrite orb_false_r].
  rewrite H5 by done. done.
Qed.

End Renormalize.

Lemma transformError_status_fixed_point_witness :
  I18nextErrorHandler.transformError
    (Some (I18nextErrorHandler.transformError
             (Some (Samples.rawError "Error" "HTTP 404: Not Found" (Some 404)))
             "/locales/en/test.json")) "/locales/en/test.json"
  = I18nextErrorHandler.transformError
      (Some (Samples.rawError "Error" "HTTP 404: Not Found" (Some 404)))
      "/locales/en/test.json".
Proof.
  apply (transformError_status_fixed_point _ _ 404); [reflexivity | lia].
Defined.

Lemma transformError_retry_survives_witness :
  I18nextError.retry
    (I18nextErrorHandler.transformError
       (Some (I18nextErrorHandler.transformError
                (Some (Samples.rawError "TypeError" "Network request failed"
                         None)) "/locales/en/test.json"))
       "/locales/en/test.json") = Some true.
Proof. apply transformError_retry_survives. reflexivity. Defined.

Lemma transformError_parse_verdict_flips_witness :
  I18nextError.retry
    (I18nextErrorHandler.transformError
       (Some (I18nextErrorHandler.transformError
                (Some (Samples.rawError "SyntaxError"
                         "Unexpected token } in JSON at position 5" None))
                "/locales/en/test.json"))
       "/locales/en/test.json") = Some true ∧
  I18nextError.message
    (I18nextErrorHandler.transformError
       (Some (I18nextErrorHandler.transformError
                (Some (Samples.rawError "SyntaxError"
                         "Unexpected token } in JSON at position 5" None))
                "/locales/en/test.json"))
       "/locales/en/test.json")
  = Some ("failed loading " +:+ "/locales/en/test.json" +:+ ": " +:+
          "failed parsing " +:+ "/locales/en/test.json" +:+ " to json").
Proof.
  apply (transformError_parse_verdict_flips
           (Some (Samples.rawError "SyntaxError"
                    "Unexpected token } in JSON at position 5" None))
           "/locales/en/test.json"); reflexivity.
Defined.

(** ** The query function and the cache-backed request *)

Section QueryFunctionOutcomes.
Import Samples I18nextError I18nextErrorHandler.

Variable JSON_stringify : JSValue -> JSValue.
Variable encodeURIComponent : string -> string.
Variable nodeProcess : option NodeProcess.t.
Variable fetch : string -> RequestInit.t -> FetchOutcome.

Local Abbreviation createQueryFn JSON_parse :=
  (TanStackI18nextBackend.createQueryFn
     JSON_stringify JSON_parse encodeURIComponent nodeProcess fetch).
Local Abbreviation finalUrl this u :=
  (TanStackI18nextBackend.addQueryString encodeURIComponent u
     (I18nextRequestOptions.queryStringParams
        (TanStackI18nextBackend.options this))).
Local Abbreviation fetchOptions this payload :=
  (TanStackI18nextBackend.buildFetchOptions JSON_stringify nodeProcess
     this payload).

(** X8. A response that is not ok and has a status in [400,600) makes the
    query function reject with the status-classified error: retry is true
    exactly for a 5xx status, the message names the requested URL and the
    status, and the recorded URL is the requested one, without the query
    string that was sent. *)
Theorem createQueryFn_http_failure JSON_parse
    (this : TanStackI18nextBackend.t) (u : string) (payload : JSValue)
    (r : FetchResponse.t) :
  fetch (finalUrl this u) (fetchOptions this payload) = FetchResponded r ->
  FetchResponse.ok r = false ->
  400 <= FetchResponse.status r < 600 ->
  createQueryFn JSON_parse this u payload tt
  = Rejected (Some
      {| name := Some "Error";
         message := Some ("failed loading " +:+ u +:+ "; status code: " +:+
                          numToString (FetchResponse.status r));
         status := Some (FetchResponse.status r);
         retry := Some (in5xx (FetchResponse.status r));
         url := Some u; response := None |}).
Proof.
  intros Hfetch Hok Hstatus. unfold TanStackI18nextBackend.createQueryFn.
  rewrite Hfetch, Hok. simpl negb. cbv iota.
  rewrite (transformError_status_form _ u (FetchResponse.status r));
    [done | | done].
  reflexivity.
Qed.

(** X9. Without a custom parse function an ok response with an empty body
    resolves to the response status and the empty object, whatever
    [JSON.parse] would do with the empty string. *)
Theorem createQueryFn_empty_body JSON_parse
    (this : TanStackI18nextBackend.t) (u : string) (payload : JSValue)
    (r : FetchResponse.t) :
  fetch (finalUrl this u) (fetchOptions this payload) = FetchResponded r ->
  FetchResponse.ok r = true ->
  FetchResponse.text r = "" ->
  I18nextRequestOptions.parse (TanStackI18nextBackend.options this) = None ->
  createQueryFn JSON_parse this u payload tt
  = Resolved {| I18nextResponse.status := FetchResponse.status r;
                I18nextResponse.data := JObj ∅ |}.
Proof.
  intros Hfetch Hok Htext Hparse. unfold TanStackI18nextBackend.createQueryFn.
  rewrite Hfetch, Hok. simpl negb. cbv iota.
  unfold TanStackI18nextBackend.parseBody. by rewrite Hparse, Htext.
Qed.

(** X10. A configured parse function is the only parser: the outcome of
    the query function does not depend on [JSON.parse], and on an ok
    response it is decided by the custom function applied to the body
    text, the empty body included. *)
Theorem createQueryFn_custom_parse JSON_parse JSON_parse'
    (this : TanStackI18nextBackend.t) (u : string) (payload : JSValue)
    (parse : string -> option JSValue) :
  I18nextRequestOptions.parse (TanStackI18nextBackend.options this)
    = Some parse ->
  createQueryFn JSON_parse this u payload tt
    = createQueryFn JSON_parse' this u payload tt ∧
  ∀ r, fetch (finalUrl this u) (fetchOptions this payload) = FetchResponded r ->
       FetchResponse.ok r = true ->
       createQueryFn JSON_parse this u payload tt
       = match parse (FetchResponse.text r) with
         | Some parsedData =>
             Resolved {| I18nextResponse.status := FetchResponse.status r;
                         I18nextResponse.data := parsedData |}
         | None =>
             Rejected (Some (transformError
                               (Some (TanStackI18nextBackend.parseFailure u)) u))
         end.
Proof.
  intros Hparse. unfold TanStackI18nextBackend.createQueryFn,
    TanStackI18nextBackend.parseBody. rewrite Hparse. split; [done|].
  intros r -> ->. done.
Qed.

(** X11. Whatever the transport does, a rejection of the query function
    carries a normalized error: named "Error", for the requested URL, with
    a non-empty message and a boolean retry flag. *)
Theorem createQueryFn_rejects_normalized JSON_parse
    (this : TanStackI18nextBackend.t) (u : string) (payload : JSValue)
    (reason : option I18nextError.t) :
  createQueryFn JSON_parse this u payload tt = Rejected reason ->
  ∃ e, reason = Some e ∧ name e = Some "Error" ∧ url e = Some u ∧
       (∃ m, message e = Some m ∧ m ≠ "") ∧
       (retry e = Some true ∨ retry e = Some false).
Proof.
  unfold TanStackI18nextBackend.createQueryFn.
  assert (∀ raw,
            Rejected (A:=I18nextResponse.t) (Some (transformError raw u))
              = Rejected reason ->
            ∃ e, reason = Some e ∧
              name e = Some "Error" ∧ url e = Some u ∧
              (∃ m, message e = Some m ∧ m ≠ "") ∧
              (retry e = Some true ∨ retry e = Some false)) as Hshape.
  { intros raw Heq. exists (transformError raw u).
    destruct (transformError_shape raw u) as (? & ? & ? & ? & ?).
    split; [congruence | by auto]. }
  destruct (fetch _ _) as [raw|r]; [by apply Hshape|].
  destruct (negb _); [by apply Hshape|].
  destruct (TanStackI18nextBackend.parseBody _ _ _); [done | by apply Hshape].
Qed.

End QueryFunctionOutcomes.

Lemma createQueryFn_http_failure_witness :
  TanStackI18nextBackend.createQueryFn
    Samples.stringifyOpaque Samples.parseOnlyEmptyObject id None
    (Samples.refusing 503 "Service Unavailable")
    Samples.plainBackend "/locales/en/test.json" JUndefined tt
  = Rejected (Some
      {| I18nextError.name := Some "Error";
         I18nextError.message :=
           Some ("failed loading " +:+ "/locales/en/test.json" +:+
                 "; status code: " +:+ numToString 503);
         I18nextError.status := Some 503;
         I18nextError.retry := Some (I18nextErrorHandler.in5xx 503);
         I18nextError.url := Some "/locales/en/test.json";
         I18nextError.response := None |}).
Proof.
  apply (createQueryFn_http_failure
           Samples.stringifyOpaque id None
           (Samples.refusing 503 "Service Unavailable")
           Samples.parseOnlyEmptyObject Samples.plainBackend
           "/locales/en/test.json" JUndefined
           {| FetchResponse.ok := false; FetchResponse.status := 503;
              FetchResponse.statusText := "Service Unavailable";
              FetchResponse.text := "" |});
    [reflexivity | reflexivity | simpl; lia].
Defined.

Lemma createQueryFn_empty_body_witness :
  TanStackI18nextBackend.createQueryFn
    Samples.stringifyOpaque Samples.parseOnlyEmptyObject id None
    (Samples.answering "")
    Samples.plainBackend "/locales/en/test.json" JUndefined tt
  = Resolved {| I18nextResponse.status := 200;
                I18nextResponse.data := JObj ∅ |}.
Proof.
  apply (createQueryFn_empty_body
           Samples.stringifyOpaque id None (Samples.answering "")
           Samples.parseOnlyEmptyObject Samples.plainBackend
           "/locales/en/test.json" JUndefined
           {| FetchResponse.ok := true; FetchResponse.status := 200;
              FetchResponse.statusText := "OK"; FetchResponse.text := "" |});
    reflexivity.
Defined.

Lemma createQueryFn_custom_parse_witness :
  TanStackI18nextBackend.createQueryFn
    Samples.stringifyOpaque Samples.parseOnlyEmptyObject id None
    (Samples.answering "")
    (Samples.backendWith Samples.optionsWithParse)
    "/locales/en/test.json" JUndefined tt
  = Rejected (Some (I18nextErrorHandler.transformError
                      (Some (TanStackI18nextBackend.parseFailure
                               "/locales/en/test.json"))
                      "/locales/en/test.json")).
Proof.
  apply (proj2 (createQueryFn_custom_parse
                  Samples.stringifyOpaque id None (Samples.answering "")
                  Samples.parseOnlyEmptyObject Samples.parseOnlyEmptyObject
                  (Samples.backendWith Samples.optionsWithParse)
                  "/locales/en/test.json" JUndefined _ eq_refl)
           {| FetchResponse.ok := true; FetchResponse.status := 200;
              FetchResponse.statusText := "OK"; FetchResponse.text := "" |});
    reflexivity.
Defined.

Lemma createQueryFn_rejects_normalized_witness :
  ∃ e, Some (I18nextErrorHandler.transformError
               (Some (TanStackI18nextBackend.parseFailure
                        "/locales/en/test.json")) "/locales/en/test.json")
       = Some e ∧
       I18nextError.name e = Some "Error" ∧
       I18nextError.url e = Some "/locales/en/test.json" ∧
       (∃ m, I18nextError.message e = Some m ∧ m ≠ "") ∧
       (I18nextError.retry e = Some true ∨ I18nextError.retry e = Some false).
Proof.
  apply (createQueryFn_rejects_normalized
           Samples.stringifyOpaque id None (Samples.answering "{")
           Samples.parseOnlyEmptyObject Samples.plainBackend
           "/locales/en/test.json" JUndefined).
  reflexivity.
Defined.

(** ** The unbound [queryKeys] *)

Section UnboundQueryKeys.
Import Samples I18nextError I18nextErrorHandler.

(** X16. [getCachedData] never reaches the cache client: for every
    backend, URL and payload it throws the error named "ReferenceError"
    with message "queryKeys is not defined", because the key is computed
    from the identifier [queryKeys], which has no binding at run time. *)
Theorem getCachedData_throws
    (this : TanStackI18nextBackend.t) (u : string) (payload : JSValue) :
  TanStackI18nextBackend.getCachedData this u payload
  = Thrown {| name := Some "ReferenceError";
              message := Some "queryKeys is not defined";
              status := None; retry := None; url := None;
              response := None |}.
Proof. reflexivity. Qed.

(** X25. [processForCallback] on any error object, normalized or not:
    the retry signal is true exactly when the retry flag is true or the
    status lies in [500,600), the error passed on is the message, and a
    missing error gives null and no retry.  So an error flagged for retry
    is retried even with a 4xx status, and an unflagged error with a 5xx
    status is retried too. *)
Theorem processForCallback_signal (e : I18nextError.t) :
  (Processed.retry (processForCallback (Some e)) = true <->
   retry e = Some true ∨ ∃ n, status e = Some n ∧ 500 <= n < 600) ∧
  Processed.error (processForCallback (Some e))
    = match message e with Some m => JStr m | None => JUndefined end ∧
  processForCallback None
    = {| Processed.error := JNull; Processed.retry := false |}.
Proof.
  rewrite processForCallback_spec. simpl. split; [|done].
  rewrite orb_true_iff, bool_decide_eq_true.
  destruct (status e) as [n|]; simpl.
  - rewrite in5xx_spec. split; [intros [?|?]; eauto | intros [?|(? & [= <-] & ?)]; auto].
  - split; [intros [?|?]; auto; done | intros [?|(? & ? & _)]; auto; done].
Qed.

(** X26. The constructor of [TanStackI18nextBackend] merges shallowly:
    without a [tanstackQuery] block in the options it installs its own
    block, with enabled true, staleTime 300000, cacheTime 600000, retry 3,
    the exponential retry delay, refetchOnWindowFocus false and
    refetchOnReconnect true; a supplied block replaces that block whole,
    so the fields it leaves out stay undefined. *)
Theorem constructor_tanstackQuery_block
    (client : QueryClient.t) (options : option I18nextRequestOptions.t) :
  (options ≫= I18nextRequestOptions.tanstackQuery = None ->
   I18nextRequestOptions.tanstackQuery
     (TanStackI18nextBackend.options
        (TanStackI18nextBackend.constructor client options))
   = Some {| TanStackQueryOptions.enabled := Some true;
             TanStackQueryOptions.staleTime := Some 300000;
             TanStackQueryOptions.cacheTime := Some 600000;
             TanStackQueryOptions.retry := Some (RetryCount 3);
             TanStackQueryOptions.retryDelay :=
               Some (RetryDelayFn getRetryDelay);
             TanStackQueryOptions.refetchOnWindowFocus := Some false;
             TanStackQueryOptions.refetchOnReconnect := Some true |}) ∧
  (∀ tq, options ≫= I18nextRequestOptions.tanstackQuery = Some tq ->
     I18nextRequestOptions.tanstackQuery
       (TanStackI18nextBackend.options
          (TanStackI18nextBackend.constructor client options)) = Some tq).
Proof.
  unfold TanStackI18nextBackend.constructor. simpl.
  destruct options as [o|]; simpl; split.
  - by intros ->.
  - by intros tq ->.
  - done.
  - done.
Qed.

End UnboundQueryKeys.

Lemma constructor_tanstackQuery_block_witness :
  I18nextRequestOptions.tanstackQuery
    (TanStackI18nextBackend.options
       (TanStackI18nextBackend.constructor Samples.passThroughClient
          (Some (Samples.cacheOptions None
                   (Some (Samples.retryBlock (RetryCount 5)))))))
    ≫= TanStackQueryOptions.staleTime = None.
Proof.
  rewrite (proj2 (constructor_tanstackQuery_block Samples.passThroughClient
                    (Some (Samples.cacheOptions None
                             (Some (Samples.retryBlock (RetryCount 5)))))) _
             eq_refl).
  reflexivity.
Defined.

(** ** Invalidation and the key hierarchy *)

Section Invalidation.
Import Samples.

(** The predicate of the pattern filter reads the third element of the key
    and wants a string containing the pattern. *)
Lemma invalidateQueries_pattern_filter pattern key :
  pattern ≠ "" ->
  matchesFilter (TanStackI18nextBackend.invalidateQueries (Some pattern)) key
  <-> ∃ u, key !! 2%nat = Some (JStr u) ∧ includes pattern u = true.
Proof.
  intros Hne. unfold TanStackI18nextBackend.invalidateQueries.
  assert (truthyStr (Some pattern) = true) as ->
    by (by apply negb_true_iff, String.eqb_neq).
  simpl. destruct (key !! 2%nat) as [[]|]; split;
    try done; try (by intros (? & [=] & _)).
  - intros H. by eexists.
  - by intros (? & [= <-] & ?).
Qed.

(** X17. Invalidation by a non-empty URL pattern reaches a load or save
    key exactly when the key's URL contains the pattern, so the exact URL
    always reaches its own entries, and it never reaches the bare prefix
    key.  Without a pattern, and with the empty pattern alike, the call
    throws the error named "ReferenceError" before it reaches the client,
    because the prefix key is read from the unbound [queryKeys]. *)
Theorem invalidateQueries_by_pattern (pattern : string) :
  pattern ≠ "" ->
  (∀ u payload,
     matchesFilter (TanStackI18nextBackend.invalidateQueries (Some pattern))
       (Types.queryKeys.load u payload) <-> includes pattern u = true) ∧
  (∀ u payload,
     matchesFilter (TanStackI18nextBackend.invalidateQueries (Some pattern))
       (Types.queryKeys.create u payload) <-> includes pattern u = true) ∧
  (∀ payload,
     matchesFilter (TanStackI18nextBackend.invalidateQueries (Some pattern))
       (Types.queryKeys.load pattern payload) ∧
     matchesFilter (TanStackI18nextBackend.invalidateQueries (Some pattern))
       (Types.queryKeys.create pattern payload)) ∧
  ¬ matchesFilter (TanStackI18nextBackend.invalidateQueries (Some pattern))
      Types.queryKeys.all ∧
  TanStackI18nextBackend.invalidateQueries (Some "")
  = TanStackI18nextBackend.invalidateQueries None ∧
  TanStackI18nextBackend.invalidateQueries None
  = Thrown {| I18nextError.name := Some "ReferenceError";
              I18nextError.message := Some "queryKeys is not defined";
              I18nextError.status := None; I18nextError.retry := None;
              I18nextError.url := None; I18nextError.response := None |}.
Proof.
  intros Hne.
  assert (∀ u payload,
     matchesFilter (TanStackI18nextBackend.invalidateQueries (Some pattern))
       (Types.queryKeys.load u payload) <-> includes pattern u = true) as Hload.
  { intros u payload. rewrite invalidateQueries_pattern_filter by done.
    split; [by intros (? & [= <-] & ?) | intros H; by exists u]. }
  assert (∀ u payload,
     matchesFilter (TanStackI18nextBackend.invalidateQueries (Some pattern))
       (Types.queryKeys.create u payload) <-> includes pattern u = true)
    as Hcreate.
  { intros u payload. rewrite invalidateQueries_pattern_filter by done.
    split; [by intros (? & [= <-] & ?) | intros H; by exists u]. }
  split; [exact Hload|]. split; [exact Hcreate|]. split; [|split; [|split]].
  - intros payload. split; [apply Hload | apply Hcreate]; apply includes_refl.
  - rewrite invalidateQueries_pattern_filter by done. by intros (? & [=] & _).
  - reflexivity.
  - reflexivity.
Qed.

(** X18. Invalidation by pattern does not look at the namespace: any key,
    of this subsystem or not, whose third element is a string containing
    the pattern is reached. *)
Theorem invalidateQueries_pattern_ignores_namespace
    (pattern u : string) (first second : JSValue) (rest : list JSValue) :
  pattern ≠ "" -> includes pattern u = true ->
  matchesFilter (TanStackI18nextBackend.invalidateQueries (Some pattern))
    (first :: second :: JStr u :: rest).
Proof.
  intros Hne Hinc. apply invalidateQueries_pattern_filter; [done|].
  by exists u.
Qed.

(** X19. The intermediate keys of [types.ts] split the namespace:
    [loads()] is a prefix of every load key and of no save key, and
    [creates()] is a prefix of every save key and of no load key. *)
Theorem queryKeys_loads_and_creates (u : string) (payload : JSValue) :
  Types.queryKeys.loads tt `prefix_of` Types.queryKeys.load u payload ∧
  Types.queryKeys.creates tt `prefix_of` Types.queryKeys.create u payload ∧
  ¬ Types.queryKeys.loads tt `prefix_of` Types.queryKeys.create u payload ∧
  ¬ Types.queryKeys.creates tt `prefix_of` Types.queryKeys.load u payload.
Proof.
  repeat split.
  - by eexists.
  - by eexists.
  - by intros [k [=]].
  - by intros [k [=]].
Qed.

End Invalidation.

Lemma invalidateQueries_by_pattern_witness :
  matchesFilter (TanStackI18nextBackend.invalidateQueries (Some "/en/"))
    (Types.queryKeys.load "/locales/en/test.json" JUndefined) ∧
  ¬ matchesFilter (TanStackI18nextBackend.invalidateQueries (Some "/en/"))
      (Types.queryKeys.load "/locales/de/test.json" JUndefined).
Proof.
  destruct (invalidateQueries_by_pattern "/en/") as (Hload & _);
    [discriminate|].
  split.
  - apply Hload. reflexivity.
  - intros H%Hload. discriminate H.
Defined.

Lemma invalidateQueries_pattern_ignores_namespace_witness :
  matchesFilter (TanStackI18nextBackend.invalidateQueries (Some "/en/"))
    [JStr "users"; JStr "list"; JStr "/api/en/users"].
Proof.
  apply (invalidateQueries_pattern_ignores_namespace "/en/" "/api/en/users");
    [discriminate | reflexivity].
Defined.

(** ** The two guards of types.ts *)

Section Guards.

(** X20. Whatever passes [isTanstackQueryEnabled] passes
    [isQueryClientAvailable]; the two guards disagree exactly on options
    that hold a cache client but no enabled flag at all. *)
Theorem guards_compared (options : I18nextRequestOptions.t) :
  (Types.isTanstackQueryEnabled options = true ->
   Types.isQueryClientAvailable options = true) ∧
  (Types.isQueryClientAvailable options = true ∧
   Types.isTanstackQueryEnabled options = false
   <-> is_Some (I18nextRequestOptions.queryClient options) ∧
       I18nextRequestOptions.tanstackQuery options
         ≫= TanStackQueryOptions.enabled = None).
Proof.
  rewrite <- (not_true_iff_false (Types.isTanstackQueryEnabled options)).
  rewrite isTanstackQueryEnabled_spec, isQueryClientAvailable_spec.
  destruct (I18nextRequestOptions.tanstackQuery options
              ≫= TanStackQueryOptions.enabled) as [[|]|];
    intuition congruence.
Qed.

End Guards.

(** ** The React Native retry policies *)

Section ReactNativeRetry.
Import I18nextError I18nextErrorHandler ReactNativeConfig.

Lemma double_le_pow2 i : 0 <= i -> 2 * i <= 2 ^ i.
Proof.
  intros Hi. destruct (Z.eq_dec i 0) as [->|Hne]; [done|].
  replace i with (Z.succ (i - 1)) at 2 by lia.
  rewrite Z.pow_succ_r by lia.
  pose proof (Z.pow_gt_lin_r 2 (i - 1)). lia.
Qed.

(** X21. For every attempt index i >= 0 the delay of
    [reactNativeI18nextQueryConfig] is min(2000 * i, 10000): no delay at
    all before the first retry, never decreasing, at most 10000, equal to
    10000 exactly from attempt 5 on, and never longer than the backend's
    exponential [getRetryDelay] for the same attempt. *)
Theorem i18nextRetryDelay_linear_capped (i : Z) :
  0 <= i ->
  i18nextRetryDelay 0 = 0 ∧
  0 <= i18nextRetryDelay i <= 10000 ∧
  (∀ j, i <= j -> i18nextRetryDelay i <= i18nextRetryDelay j) ∧
  (i18nextRetryDelay i = 10000 <-> 5 <= i) ∧
  i18nextRetryDelay i <= getRetryDelay i.
Proof.
  intros Hi. unfold i18nextRetryDelay, getRetryDelay.
  pose proof (double_le_pow2 i Hi). repeat split; try lia.
Qed.

(** X22. The retry policy of [createReactNativeQueryClient] never retries
    an error with a 4xx status and otherwise retries the first three
    failures; it therefore retries whatever [shouldRetry] accepts among
    normalized errors within those three failures, and whatever the
    stricter policy of [reactNativeI18nextQueryConfig] retries. *)
Theorem queriesRetry_policy (failureCount : Z) (e : option I18nextError.t) :
  (optIn in4xx (e ≫= status) = true ->
   queriesRetry failureCount e = false ∧ i18nextRetry failureCount e = false) ∧
  (optIn in4xx (e ≫= status) = false ->
   (queriesRetry failureCount e = true <-> failureCount < 3) ∧
   (i18nextRetry failureCount e = true <-> failureCount < 2)) ∧
  (i18nextRetry failureCount e = true -> queriesRetry failureCount e = true) ∧
  (∀ raw u, failureCount < 3 -> shouldRetry (transformError raw u) = true ->
            queriesRetry failureCount (Some (transformError raw u)) = true).
Proof.
  unfold queriesRetry, i18nextRetry. split; [|split; [|split]].
  - by intros ->.
  - intros ->. by rewrite !Z.ltb_lt.
  - destruct (optIn in4xx _); [done|]. rewrite !Z.ltb_lt. lia.
  - intros raw u Hfc Hretry. unfold shouldRetry in Hretry.
    apply bool_decide_eq_true in Hretry.
    destruct (transformError_normalized raw u) as (_ & _ & _ & H4).
    destruct (optIn in4xx (Some (transformError raw u) ≫= status)) eqn:E.
    + specialize (H4 E). congruence.
    + by apply Z.ltb_lt.
Qed.

End ReactNativeRetry.

Lemma i18nextRetryDelay_linear_capped_witness :
  ReactNativeConfig.i18nextRetryDelay 0 = 0 ∧
  0 <= ReactNativeConfig.i18nextRetryDelay 3 <= 10000 ∧
  (∀ j, 3 <= j ->
     ReactNativeConfig.i18nextRetryDelay 3
       <= ReactNativeConfig.i18nextRetryDelay j) ∧
  (ReactNativeConfig.i18nextRetryDelay 3 = 10000 <-> 5 <= 3) ∧
  ReactNativeConfig.i18nextRetryDelay 3 <= I18nextErrorHandler.getRetryDelay 3.
Proof. apply (i18nextRetryDelay_linear_capped 3). lia. Defined.

Lemma queriesRetry_policy_witness :
  ReactNativeConfig.queriesRetry 2
    (Some (I18nextErrorHandler.transformError
             (Some (Samples.rawError "Error" "HTTP 503: Service Unavailable"
                      (Some 503))) "/locales/en/test.json")) = true ∧
  ReactNativeConfig.queriesRetry 0
    (Some (I18nextErrorHandler.transformError
             (Some (Samples.rawError "Error" "HTTP 404: Not Found"
                      (Some 404))) "/locales/en/test.json")) = false.
Proof.
  split.
  - apply (proj2 (proj2 (proj2 (queriesRetry_policy 2 None))));
      [lia | reflexivity].
  - apply (proj1 (queriesRetry_policy 0 _)). reflexivity.
Defined.

(** ** Headers *)

Section Headers.

Variable JSON_stringify : JSValue -> JSValue.
Variable nodeProcess : option NodeProcess.t.

Local Abbreviation buildFetchOptions :=
  (TanStackI18nextBackend.buildFetchOptions JSON_stringify nodeProcess).

(** X23. Headers brought by the transport-options override are the
    request's headers, all of them and nothing else: the custom headers,
    the User-Agent and the payload's Content-Type reach the request only
    if the override repeats them. *)
Theorem buildFetchOptions_transport_headers_replace
    (this : TanStackI18nextBackend.t) (payload : JSValue)
    (h : gmap string string) :
  RequestInit.headers
    (TanStackI18nextBackend.resolvedRequestOptions this payload) = Some h ->
  RequestInit.headers (buildFetchOptions this payload) = Some h.
Proof.
  intros Hh. unfold TanStackI18nextBackend.buildFetchOptions. simpl.
  by rewrite Hh.
Qed.


End Headers.

Lemma buildFetchOptions_transport_headers_replace_witness :
  RequestInit.headers
    (TanStackI18nextBackend.buildFetchOptions Samples.stringifyOpaque None
       (Samples.backendWith Samples.optionsWithTransportHeaders)
       Samples.samplePayload)
  = Some {[ "X-Requested-With" := "app" ]}.
Proof.
  apply (buildFetchOptions_transport_headers_replace
           Samples.stringifyOpaque None
           (Samples.backendWith Samples.optionsWithTransportHeaders)
           Samples.samplePayload).
  reflexivity.
Defined.


Lemma guards_compared_witness :
  Types.isQueryClientAvailable
    (Samples.cacheOptions (Some Samples.passThroughClient)
       (Some (Samples.cacheBlock (Some true)))) = true.
Proof.
  apply (proj1 (guards_compared
                  (Samples.cacheOptions (Some Samples.passThroughClient)
                     (Some (Samples.cacheBlock (Some true)))))).
  reflexivity.
Defined.
